(** * Prezefren: the NLLB local translation service

    A shallow embedding of [scripts/nllb_translator.py]: the [NLLBTranslator]
    class ([__init__], [load_model], [translate]) and the two modes of [main]
    (single-shot JSON on standard input, and the interactive prompt loop).

    The script is glue around three external collaborators: the file system
    ([os.path.exists]), the [transformers]/[torch] model runtime
    ([from_pretrained], the tokenizer call, [generate], [decode]) and the
    process's standard streams ([sys.stdin.read], [input], [print]).  They are
    not code of the script, so they enter the model as the fields of a
    [Runtime]: every definition and theorem below holds for every runtime.
    What the script itself decides (control flow, the language table, the
    keyword arguments it passes, the response dictionaries, which exceptions
    each [try] catches) is written out. *)

From Stdlib Require Import ZArith NArith String Ascii List Lia.
From stdpp Require Import base option list strings gmap.

Local Open Scope string_scope.
Local Open Scope Z_scope.

#[local] Set Warnings "-register-all".

(** ** Python values *)

(** The values that reach the script: what [json.loads] builds, and the [str]
    objects the script makes itself.  A [PDict] lists the items of a [dict] in
    insertion order (the order [json.dumps] prints them in); a float keeps the
    text of its literal, the script never computes with one. *)
Inductive pyval : Type :=
| PNone
| PBool (b : bool)
| PInt (n : Z)
| PFloat (literal : string)
| PStr (s : string)
| PList (items : list pyval)
| PDict (items : list (string * pyval)).

(** [type(v).__name__], as exception messages print it. *)
Definition py_type_name (v : pyval) : string :=
  match v with
  | PNone => "NoneType"
  | PBool _ => "bool"
  | PInt _ => "int"
  | PFloat _ => "float"
  | PStr _ => "str"
  | PList _ => "list"
  | PDict _ => "dict"
  end.

(** [v == s] for a [str] literal [s]: only the equal string compares equal. *)
Definition py_eq_str (v : pyval) (s : string) : bool :=
  match v with
  | PStr t => String.eqb t s
  | _ => false
  end.

(** Lists and dicts are unhashable: using one as a [dict] key raises. *)
Definition hashable (v : pyval) : bool :=
  match v with
  | PList _ | PDict _ => false
  | _ => true
  end.

(** Lookup in a [dict]'s items: the binding of key [k], if any. *)
Fixpoint items_lookup (items : list (string * pyval)) (k : string) : option pyval :=
  match items with
  | [] => None
  | (k', v) :: rest => if String.eqb k' k then Some v else items_lookup rest k
  end.

(** [k in d] for a [dict] given by its items. *)
Definition items_has_key (items : list (string * pyval)) (k : string) : bool :=
  match items_lookup items k with
  | Some _ => true
  | None => false
  end.

(** ** Exceptions *)

(** The exception classes the script distinguishes or raises itself.  The two
    first ones derive from [BaseException] only; every other class derives from
    [Exception]. *)
Inductive exc_class : Type :=
| KeyboardInterrupt
| SystemExit
| JSONDecodeError
| KeyError
| AttributeError
| TypeError
| EOFError
| OtherException (name : string).

(** A raised exception: its class and [str(e)]. *)
Record exn : Type := Exc { exc_type : exc_class; exc_str : string }.

(** [isinstance(e, Exception)]. *)
Definition is_Exception (e : exn) : bool :=
  match exc_type e with
  | KeyboardInterrupt | SystemExit => false
  | _ => true
  end.

(** [isinstance(e, json.JSONDecodeError)]. *)
Definition is_JSONDecodeError (e : exn) : bool :=
  match exc_type e with
  | JSONDecodeError => true
  | _ => false
  end.

(** [isinstance(e, KeyboardInterrupt)]. *)
Definition is_KeyboardInterrupt (e : exn) : bool :=
  match exc_type e with
  | KeyboardInterrupt => true
  | _ => false
  end.

(** The outcome of running a piece of the script: a value, a raised exception,
    or [OutOfFuel] when the bounded unrolling of the interactive loop ran out
    before the loop ended (no other construct produces it). *)
Inductive result (A : Type) : Type :=
| Ok (a : A)
| Raise (e : exn)
| OutOfFuel.
Arguments Ok {A} a.
Arguments Raise {A} e.
Arguments OutOfFuel {A}.

(** ** [str] methods used by the interactive mode

    A Python [str] is a sequence of code points; here it is the Rocq [string]
    of its UTF-8 bytes ([utf8] below is that encoding).  [strip] removes
    leading and trailing whitespace code points, Python's full set: it
    decodes the one, two or three bytes of the code point at each end and
    tests it with [is_space] (no code point of four bytes is whitespace). *)

(** [str.isspace] of one code point: the 29 whitespace characters of Python
    (tab to carriage return, the separators 28 to 31, space, U+0085, U+00A0,
    U+1680, U+2000 to U+200A, U+2028, U+2029, U+202F, U+205F, U+3000). *)
Definition is_space (code : N) : bool :=
  (((9 <=? code) && (code <=? 13)) || ((28 <=? code) && (code <=? 32))
   || (code =? 133) || (code =? 160) || (code =? 5760)
   || ((8192 <=? code) && (code <=? 8202))
   || (code =? 8232) || (code =? 8233) || (code =? 8239) || (code =? 8287)
   || (code =? 12288))%N.

(** A continuation byte of UTF-8 (binary 10xxxxxx). *)
Definition is_continuation (b : N) : bool := ((128 <=? b) && (b <=? 191))%N.

(** The code point of a two-byte and of a three-byte sequence. *)
Definition code2 (b1 b2 : N) : N := ((b1 - 192) * 64 + (b2 - 128))%N.

Definition code3 (b1 b2 b3 : N) : N :=
  ((b1 - 224) * 4096 + (b2 - 128) * 64 + (b3 - 128))%N.

(** The UTF-8 bytes of one code point, and of a sequence of code points. *)
Definition utf8_char (code : N) : string :=
  let byte (n : N) := ascii_of_N n in
  (if code <? 128 then String (byte code) EmptyString
   else if code <? 2048 then
     String (byte (192 + code / 64)) (String (byte (128 + code mod 64)) EmptyString)
   else if code <? 65536 then
     String (byte (224 + code / 4096))
       (String (byte (128 + (code / 64) mod 64))
          (String (byte (128 + code mod 64)) EmptyString))
   else
     String (byte (240 + code / 262144))
       (String (byte (128 + (code / 4096) mod 64))
          (String (byte (128 + (code / 64) mod 64))
             (String (byte (128 + code mod 64)) EmptyString))))%N.

Fixpoint utf8 (codes : list N) : string :=
  match codes with
  | [] => EmptyString
  | code :: rest => utf8_char code +:+ utf8 rest
  end.

(** [str.lstrip()]: drops whitespace code points from the front. *)
Fixpoint lstrip (s : string) : string :=
  match s with
  | EmptyString => EmptyString
  | String c1 s1 =>
      let b1 := N_of_ascii c1 in
      if (b1 <? 128)%N then (if is_space b1 then lstrip s1 else s)
      else
        match s1 with
        | EmptyString => s
        | String c2 s2 =>
            let b2 := N_of_ascii c2 in
            if ((194 <=? b1) && (b1 <? 224))%N && is_continuation b2 then
              (if is_space (code2 b1 b2) then lstrip s2 else s)
            else
              match s2 with
              | EmptyString => s
              | String c3 s3 =>
                  let b3 := N_of_ascii c3 in
                  if ((224 <=? b1) && (b1 <? 240))%N
                     && is_continuation b2 && is_continuation b3
                     && (2048 <=? code3 b1 b2 b3)%N
                  then (if is_space (code3 b1 b2 b3) then lstrip s3 else s)
                  else s
              end
        end
  end.

(** The same from the back, on the reversed bytes: the last byte comes
    first, a lead byte ends the code point. *)
Fixpoint lstrip_reversed (r : string) : string :=
  match r with
  | EmptyString => EmptyString
  | String c1 r1 =>
      let b1 := N_of_ascii c1 in
      if (b1 <? 128)%N then (if is_space b1 then lstrip_reversed r1 else r)
      else if is_continuation b1 then
        match r1 with
        | EmptyString => r
        | String c2 r2 =>
            let b2 := N_of_ascii c2 in
            if ((194 <=? b2) && (b2 <? 224))%N then
              (if is_space (code2 b2 b1) then lstrip_reversed r2 else r)
            else if is_continuation b2 then
              match r2 with
              | EmptyString => r
              | String c3 r3 =>
                  let b3 := N_of_ascii c3 in
                  if ((224 <=? b3) && (b3 <? 240))%N && (2048 <=? code3 b3 b2 b1)%N
                  then (if is_space (code3 b3 b2 b1) then lstrip_reversed r3 else r)
                  else r
              end
            else r
        end
      else r
  end.

(** [str.rstrip()] and [str.strip()]. *)
Definition rstrip (s : string) : string :=
  String.rev (lstrip_reversed (String.rev s)).

Definition strip (s : string) : string := rstrip (lstrip s).

(** [strip] as Python documents it, on the code points themselves: what
    [strip] above is compared with. *)
Definition code_point (code : N) : Prop := (code < 1114112)%N.

Fixpoint lstrip_codes (codes : list N) : list N :=
  match codes with
  | [] => []
  | code :: rest => if is_space code then lstrip_codes rest else codes
  end.

Definition rstrip_codes (codes : list N) : list N := rev (lstrip_codes (rev codes)).

Definition strip_codes (codes : list N) : list N := rstrip_codes (lstrip_codes codes).

(** [str.lower()] on the ASCII letters; the bytes of any other code point are
    kept.  The script uses [lower] only to compare the result with ["quit"],
    and no code point outside ASCII lower-cases to one of the letters q, u,
    i, t (nor to nothing), so that comparison comes out as Python's. *)
Definition lower_char (c : ascii) : ascii :=
  let n := nat_of_ascii c in
  if ((65 <=? n)%nat && (n <=? 90)%nat) then ascii_of_nat (n + 32) else c.

Fixpoint lower (s : string) : string :=
  match s with
  | String c rest => String (lower_char c) (lower rest)
  | EmptyString => EmptyString
  end.

(** [s or d] for strings: the empty string is falsy. *)
Definition str_or (s d : string) : string :=
  match s with
  | EmptyString => d
  | _ => s
  end.

(** ** The language table *)

(** [self.lang_codes], built in [__init__] and never written afterwards. *)
Definition lang_codes : gmap string string :=
  list_to_map
    [ ("en", "eng_Latn"); ("es", "spa_Latn"); ("fr", "fra_Latn");
      ("de", "deu_Latn"); ("it", "ita_Latn"); ("pt", "por_Latn");
      ("ru", "rus_Cyrl"); ("ja", "jpn_Jpan"); ("ko", "kor_Hang");
      ("zh", "zho_Hans"); ("ar", "arb_Arab"); ("hi", "hin_Deva") ].

(** The short codes the table knows. *)
Definition supported_codes : list string :=
  ["en"; "es"; "fr"; "de"; "it"; "pt"; "ru"; "ja"; "ko"; "zh"; "ar"; "hi"].

(** The locale tags the table maps to. *)
Definition lang_tags : list string :=
  [ "eng_Latn"; "spa_Latn"; "fra_Latn"; "deu_Latn"; "ita_Latn"; "por_Latn";
    "rus_Cyrl"; "jpn_Jpan"; "kor_Hang"; "zho_Hans"; "arb_Arab"; "hin_Deva" ].

(** [self.lang_codes.get(key, dflt)]: a [str] key is looked up, any other
    hashable key misses (every key of the table is a [str]), an unhashable key
    raises [TypeError]. *)
Definition lang_codes_get (key : pyval) (dflt : string) : result string :=
  match key with
  | PStr s => Ok (default dflt (lang_codes !! s))
  | PList _ | PDict _ =>
      Raise (Exc TypeError ("unhashable type: '" +:+ py_type_name key +:+ "'"))
  | _ => Ok dflt
  end.

(** [src_code] and [tgt_code] of [translate]. *)
Definition src_code (source_lang : pyval) : result string :=
  lang_codes_get source_lang "eng_Latn".

Definition tgt_code (target_lang : pyval) : result string :=
  lang_codes_get target_lang "spa_Latn".

(** ** The external runtime *)

(** [torch_dtype] values the script passes. *)
Inductive torch_dtype : Type := float16 | float32.

(** Keyword arguments of the tokenizer call. *)
Record tokenizer_kwargs : Type := TokenizerKwargs {
  return_tensors : string;
  padding : bool;
  truncation : bool;
  tok_max_length : Z
}.

(** Keyword arguments of [model.generate] (besides the unpacked inputs). *)
Record generate_kwargs : Type := GenerateKwargs {
  forced_bos_token_id : Z;
  max_length : Z;
  num_beams : Z;
  early_stopping : bool;
  do_sample : bool
}.

(** What the script calls and does not define.  [World] is whatever the
    answers may depend on and the calls may change (files, accelerator memory,
    the rest of standard input); a call returns the next world and either an
    exception ([inl]) or its value ([inr]).  [tokenizer_decode] stands for
    [tokenizer.decode(outputs[0], skip_special_tokens=...)], indexing
    included; [lang_code_to_id] for the lookup
    [tokenizer.lang_code_to_id[code]]; [inputs_to] for moving every tensor of
    the encoding to a device. *)
Class Runtime : Type := {
  World : Type;
  Tokenizer : Type;
  Model : Type;
  Encoding : Type;
  Generated : Type;
  os_path_exists : string -> World -> bool;
  AutoTokenizer_from_pretrained : string -> World -> World * (exn + Tokenizer);
  AutoModelForSeq2SeqLM_from_pretrained :
    string -> torch_dtype -> option string -> World -> World * (exn + Model);
  model_to : Model -> string -> World -> World * (exn + Model);
  tokenizer_call :
    Tokenizer -> pyval -> tokenizer_kwargs -> World -> World * (exn + Encoding);
  inputs_to : Encoding -> string -> World -> World * (exn + Encoding);
  lang_code_to_id : Tokenizer -> string -> World -> World * (exn + Z);
  model_generate :
    Model -> Encoding -> generate_kwargs -> World -> World * (exn + Generated);
  tokenizer_decode : Tokenizer -> Generated -> bool -> World -> World * (exn + string);
  sys_stdin_read : World -> World * (exn + string);
  input : string -> World -> World * (exn + string);
  json_loads : string -> exn + pyval
}.

Section Service.
Context {R : Runtime}.

(** ** Translator object and process state *)

(** The fields [__init__] sets (the language table is the constant
    [lang_codes]). *)
Record NLLBTranslator : Type := mkTranslator {
  model_path : string;
  device : string;
  model : option Model;
  tokenizer : option Tokenizer;
  loaded : bool
}.

(** [NLLBTranslator(model_path, device)]. *)
Definition NLLBTranslator_init (path dev : string) : NLLBTranslator :=
  {| model_path := path; device := dev; model := None; tokenizer := None;
     loaded := false |}.

(** Every interaction of the script with its runtime, in program order.
    [EPrintJson d indent flush] is [print(json.dumps(d, indent=indent),
    flush=flush)]; [EInput] writes its prompt and reads a line. *)
Inductive event : Type :=
| EPathExists (path : string)
| ETokenizerFromPretrained (path : string)
| EModelFromPretrained (path : string) (dtype : torch_dtype) (device_map : option string)
| EModelTo (m : Model) (dev : string)
| ETokenizerCall (t : Tokenizer) (text : pyval) (kw : tokenizer_kwargs)
| EInputsTo (inputs : Encoding) (dev : string)
| ELangCodeToId (t : Tokenizer) (code : string)
| EGenerate (m : Model) (inputs : Encoding) (kw : generate_kwargs)
| EDecode (t : Tokenizer) (outputs : Generated) (skip_special_tokens : bool)
| EStdinRead
| EInput (prompt : string)
| EPrint (line : string)
| EPrintJson (doc : list (string * pyval)) (indent : option Z) (flush : bool).

(** The process: the outside world, the one translator object [main] creates,
    and the interactions so far. *)
Record State : Type := mkState {
  world : World;
  self : NLLBTranslator;
  trace : list event
}.

(** ** A state and exception monad for the script *)

Definition M (A : Type) : Type := State -> State * result A.

Definition ret {A : Type} (a : A) : M A := fun st => (st, Ok a).

Definition bind {A B : Type} (m : M A) (k : A -> M B) : M B :=
  fun st =>
    match m st with
    | (st', Ok a) => k a st'
    | (st', Raise e) => (st', Raise e)
    | (st', OutOfFuel) => (st', OutOfFuel)
    end.

Definition raise {A : Type} (e : exn) : M A := fun st => (st, Raise e).

Definition out_of_fuel {A : Type} : M A := fun st => (st, OutOfFuel).

(** A pure step that may raise. *)
Definition lift {A : Type} (r : result A) : M A := fun st => (st, r).

(** A raising or returning library function that touches nothing. *)
Definition of_sum {A : Type} (r : exn + A) : result A :=
  match r with
  | inl e => Raise e
  | inr a => Ok a
  end.

(** Records an interaction. *)
Definition emit (ev : event) : M unit :=
  fun st => (mkState (world st) (self st) (trace st ++ [ev]), Ok tt).

(** An external call: recorded, then answered by the runtime. *)
Definition call {A : Type} (ev : event) (f : World -> World * (exn + A)) : M A :=
  fun st =>
    let '(w, r) := f (world st) in
    (mkState w (self st) (trace st ++ [ev]), of_sum r).

(** A query of the world that cannot raise. *)
Definition query {A : Type} (ev : event) (f : World -> A) : M A :=
  fun st => (mkState (world st) (self st) (trace st ++ [ev]), Ok (f (world st))).

Definition get_self : M NLLBTranslator := fun st => (st, Ok (self st)).

Definition set_self (t : NLLBTranslator) : M unit :=
  fun st => (mkState (world st) t (trace st), Ok tt).

(** [self.tokenizer = t], [self.model = m], [self.loaded = b]. *)
Definition set_tokenizer (t : Tokenizer) : M unit :=
  fun st =>
    let s := self st in
    (mkState (world st)
       (mkTranslator (model_path s) (device s) (model s) (Some t) (loaded s))
       (trace st), Ok tt).

Definition set_model (m : Model) : M unit :=
  fun st =>
    let s := self st in
    (mkState (world st)
       (mkTranslator (model_path s) (device s) (Some m) (tokenizer s) (loaded s))
       (trace st), Ok tt).

Definition set_loaded (b : bool) : M unit :=
  fun st =>
    let s := self st in
    (mkState (world st)
       (mkTranslator (model_path s) (device s) (model s) (tokenizer s) b)
       (trace st), Ok tt).

(** [try: body  except C1 as e: h1  except C2 as e: h2 ...]: an exception of
    the body goes to the first clause whose class test accepts it, and
    propagates when none does.  A handler runs outside the [try]. *)
Fixpoint find_handler {A : Type}
    (clauses : list ((exn -> bool) * (exn -> M A))) (e : exn) : option (M A) :=
  match clauses with
  | [] => None
  | (accepts, handler) :: rest =>
      if accepts e then Some (handler e) else find_handler rest e
  end.

Definition try_except {A : Type} (body : M A)
    (clauses : list ((exn -> bool) * (exn -> M A))) : M A :=
  fun st =>
    match body st with
    | (st', Raise e) =>
        match find_handler clauses e with
        | Some h => h st'
        | None => (st', Raise e)
        end
    | other => other
    end.

Declare Scope py_scope.
Delimit Scope py_scope with py.
Notation "x <- m ;; k" := (bind m (fun x => k))
  (at level 100, m at next level, right associativity) : py_scope.
Notation "m ;; k" := (bind m (fun _ => k))
  (at level 100, right associativity) : py_scope.
Local Open Scope py_scope.

(** [print(json.dumps(doc, indent=indent), flush=flush)] and [print(line)]. *)
Definition print_json (doc : list (string * pyval)) (indent : option Z) (flush : bool)
  : M unit := emit (EPrintJson doc indent flush).

Definition print (line : string) : M unit := emit (EPrint line).

(** ** Response dictionaries *)

Definition model_not_found_response (path : string) : list (string * pyval) :=
  [ ("error", PStr ("Model not found at " +:+ path));
    ("status", PStr "model_not_found") ].

Definition loading_message : list (string * pyval) :=
  [ ("status", PStr "loading"); ("message", PStr "Loading NLLB model...") ].

Definition loaded_response : list (string * pyval) :=
  [ ("status", PStr "loaded"); ("message", PStr "NLLB model loaded successfully") ].

Definition load_error_response (e : exn) : list (string * pyval) :=
  [ ("error", PStr ("Failed to load model: " +:+ exc_str e));
    ("status", PStr "load_error") ].

Definition success_response (translation : string) (source_lang target_lang : pyval)
  : list (string * pyval) :=
  [ ("status", PStr "success");
    ("translation", PStr translation);
    ("source_lang", source_lang);
    ("target_lang", target_lang);
    ("model", PStr "nllb-200") ].

Definition translation_error_response (e : exn) : list (string * pyval) :=
  [ ("error", PStr ("Translation failed: " +:+ exc_str e));
    ("status", PStr "translation_error") ].

Definition unknown_action_response : list (string * pyval) :=
  [ ("error", PStr "Unknown action"); ("status", PStr "error") ].

Definition json_error_response : list (string * pyval) :=
  [ ("error", PStr "Invalid JSON input"); ("status", PStr "json_error") ].

Definition unexpected_error_response (e : exn) : list (string * pyval) :=
  [ ("error", PStr ("Unexpected error: " +:+ exc_str e)); ("status", PStr "error") ].

(** ** [NLLBTranslator.load_model] *)

(** The body of the [try] of [load_model]. *)
Definition load_model_body : M (list (string * pyval)) :=
  s <- get_self ;;
  found <- query (EPathExists (model_path s)) (os_path_exists (model_path s)) ;;
  if negb found then ret (model_not_found_response (model_path s))
  else
    print_json loading_message None true ;;
    t <- call (ETokenizerFromPretrained (model_path s))
           (AutoTokenizer_from_pretrained (model_path s)) ;;
    set_tokenizer t ;;
    let dtype := if negb (String.eqb (device s) "cpu") then float16 else float32 in
    let device_map := if negb (String.eqb (device s) "cpu") then Some "auto" else None in
    m <- call (EModelFromPretrained (model_path s) dtype device_map)
           (AutoModelForSeq2SeqLM_from_pretrained (model_path s) dtype device_map) ;;
    set_model m ;;
    (if String.eqb (device s) "cpu"
     then m' <- call (EModelTo m "cpu") (model_to m "cpu") ;; set_model m'
     else ret tt) ;;
    set_loaded true ;;
    ret loaded_response.

Definition load_model : M (list (string * pyval)) :=
  try_except load_model_body
    [ (is_Exception, fun e => ret (load_error_response e)) ].

(** ** [NLLBTranslator.translate] *)

Definition tokenizer_kw : tokenizer_kwargs :=
  {| return_tensors := "pt"; padding := true; truncation := true;
     tok_max_length := 512 |}.

Definition generate_kw (bos : Z) : generate_kwargs :=
  {| forced_bos_token_id := bos; max_length := 512; num_beams := 4;
     early_stopping := true; do_sample := false |}.

(** Using [self.tokenizer] or [self.model] while it is still [None]. *)
Definition none_not_callable : exn :=
  Exc TypeError "'NoneType' object is not callable".

Definition none_has_no_attribute (attr : string) : exn :=
  Exc AttributeError ("'NoneType' object has no attribute '" +:+ attr +:+ "'").

Definition the_tokenizer (s : NLLBTranslator) (if_none : exn) : M Tokenizer :=
  match tokenizer s with
  | Some t => ret t
  | None => raise if_none
  end.

Definition the_model (s : NLLBTranslator) (if_none : exn) : M Model :=
  match model s with
  | Some m => ret m
  | None => raise if_none
  end.

(** The body of the [try] of [translate] ([torch.no_grad()] only turns
    gradient bookkeeping off around the call of [generate]). *)
Definition translate_body (text source_lang target_lang : pyval)
  : M (list (string * pyval)) :=
  s <- get_self ;;
  src <- lift (src_code source_lang) ;;
  tgt <- lift (tgt_code target_lang) ;;
  t <- the_tokenizer s none_not_callable ;;
  inputs <- call (ETokenizerCall t text tokenizer_kw) (tokenizer_call t text tokenizer_kw) ;;
  inputs <- (if negb (String.eqb (device s) "cpu")
             then call (EInputsTo inputs (device s)) (inputs_to inputs (device s))
             else ret inputs) ;;
  t <- the_tokenizer s (none_has_no_attribute "lang_code_to_id") ;;
  bos <- call (ELangCodeToId t tgt) (lang_code_to_id t tgt) ;;
  m <- the_model s (none_has_no_attribute "generate") ;;
  outputs <- call (EGenerate m inputs (generate_kw bos))
               (model_generate m inputs (generate_kw bos)) ;;
  t <- the_tokenizer s (none_has_no_attribute "decode") ;;
  translation <- call (EDecode t outputs true) (tokenizer_decode t outputs true) ;;
  ret (success_response translation source_lang target_lang).

(** The guard before the [try]: [Some r] when [translate] returns [r] at
    once. *)
Definition ensure_loaded : M (option (list (string * pyval))) :=
  s <- get_self ;;
  if negb (loaded s) then
    load_result <- load_model ;;
    if items_has_key load_result "error" then ret (Some load_result) else ret None
  else ret None.

Definition translate (text source_lang target_lang : pyval)
  : M (list (string * pyval)) :=
  early <- ensure_loaded ;;
  match early with
  | Some load_result => ret load_result
  | None =>
      try_except (translate_body text source_lang target_lang)
        [ (is_Exception, fun e => ret (translation_error_response e)) ]
  end.

(** ** [main] *)

(** The parsed command line. *)
Record Args : Type := mkArgs {
  args_model_path : string;
  args_device : string;
  args_interactive : bool
}.

(** [d.get(key, dflt)] on a value that should be a [dict]. *)
Definition py_get (d : pyval) (key : string) (dflt : pyval) : result pyval :=
  match d with
  | PDict items => Ok (default dflt (items_lookup items key))
  | _ => Raise (Exc AttributeError
                  ("'" +:+ py_type_name d +:+ "' object has no attribute 'get'"))
  end.

(** [d[key]] for a [str] key: [KeyError] prints the key's [repr]. *)
Definition py_getitem (d : pyval) (key : string) : result pyval :=
  match d with
  | PDict items =>
      match items_lookup items key with
      | Some v => Ok v
      | None => Raise (Exc KeyError ("'" +:+ key +:+ "'"))
      end
  | _ => Raise (Exc TypeError
                  ("'" +:+ py_type_name d +:+ "' object is not subscriptable"))
  end.

(** The [if]/[elif]/[else] on the request's action. *)
Definition dispatch (input_data : pyval) : M (list (string * pyval)) :=
  action <- lift (py_get input_data "action" PNone) ;;
  if py_eq_str action "load" then load_model
  else
    action <- lift (py_get input_data "action" PNone) ;;
    if py_eq_str action "translate" then
      text <- lift (py_getitem input_data "text") ;;
      source_lang <- lift (py_get input_data "source_lang" (PStr "en")) ;;
      target_lang <- lift (py_get input_data "target_lang" (PStr "es")) ;;
      translate text source_lang target_lang
    else ret unknown_action_response.

(** The JSON mode of [main]: one request on standard input, one response. *)
Definition main_json : M unit :=
  try_except
    (payload <- call EStdinRead sys_stdin_read ;;
     input_data <- lift (of_sum (json_loads payload)) ;;
     result <- dispatch input_data ;;
     print_json result None false)
    [ (is_JSONDecodeError, fun _ => print_json json_error_response None false);
      (is_Exception, fun e => print_json (unexpected_error_response e) None false) ].

(** How one turn of the interactive loop ends. *)
Inductive loop_control : Type := Break | Continue.

(** One turn of [while True]. *)
Definition interactive_turn : M loop_control :=
  try_except
    (line <- call (EInput "Text: ") (input "Text: ") ;;
     let text := strip line in
     if String.eqb (lower text) "quit" then ret Break
     else
       line <- call (EInput "Source language (en): ") (input "Source language (en): ") ;;
       let source := str_or (strip line) "en" in
       line <- call (EInput "Target language (es): ") (input "Target language (es): ") ;;
       let target := str_or (strip line) "es" in
       result <- translate (PStr text) (PStr source) (PStr target) ;;
       print_json result (Some 2) false ;;
       ret Continue)
    [ (is_KeyboardInterrupt, fun _ => ret Break) ].

(** [while True], unrolled at most [fuel] times. *)
Fixpoint interactive_loop (fuel : nat) : M unit :=
  match fuel with
  | O => out_of_fuel
  | S fuel' =>
      c <- interactive_turn ;;
      match c with
      | Break => ret tt
      | Continue => interactive_loop fuel'
      end
  end.

Definition main_interactive (fuel : nat) : M unit :=
  print "NLLB Translator Interactive Mode" ;;
  print "Enter 'quit' to exit" ;;
  interactive_loop fuel.

(** The process state right after [translator = NLLBTranslator(...)]. *)
Definition initial_state (args : Args) (w : World) : State :=
  {| world := w;
     self := NLLBTranslator_init (args_model_path args) (args_device args);
     trace := [] |}.

(** [main()] after argument parsing, started in world [w]. *)
Definition main (fuel : nat) (args : Args) (w : World) : State * result unit :=
  (if args_interactive args then main_interactive fuel else main_json)
    (initial_state args w).

(** Events that only [load_model] produces. *)
Inductive load_event : event -> Prop :=
| load_event_exists path : load_event (EPathExists path)
| load_event_loading : load_event (EPrintJson loading_message None true)
| load_event_tokenizer path : load_event (ETokenizerFromPretrained path)
| load_event_model path dtype device_map :
    load_event (EModelFromPretrained path dtype device_map)
| load_event_to m dev : load_event (EModelTo m dev).

(** The interactions of the [try] block of [translate] when every step
    succeeds, in program order. *)
Definition translate_events (s : NLLBTranslator) (t : Tokenizer) (m : Model)
    (text : pyval) (tgt : string) (inputs moved : Encoding) (bos : Z)
    (outputs : Generated) : list event :=
  [ ETokenizerCall t text
      {| return_tensors := "pt"; padding := true; truncation := true;
         tok_max_length := 512 |} ]
  ++ (if negb (String.eqb (device s) "cpu") then [EInputsTo inputs (device s)] else [])
  ++ [ ELangCodeToId t tgt;
       EGenerate m moved
         {| forced_bos_token_id := bos; max_length := 512; num_beams := 4;
            early_stopping := true; do_sample := false |};
       EDecode t outputs true ].

(** The runtime answers that make the [try] block of [translate] succeed from
    world [w]: the tokenizer call, the move to the device (skipped on
    ["cpu"]), the lookup of the target language's token id, generation and
    decoding each return a value. *)
Definition translation_succeeds (s : NLLBTranslator) (t : Tokenizer) (m : Model)
    (text : pyval) (tgt : string) (w : World) (inputs moved : Encoding) (bos : Z)
    (outputs : Generated) (translation : string) (w_end : World) : Prop :=
  exists w1 w2 w3 w4,
    tokenizer_call t text tokenizer_kw w = (w1, inr inputs) /\
    (if negb (String.eqb (device s) "cpu")
     then inputs_to inputs (device s) w1
     else (w1, inr inputs)) = (w2, inr moved) /\
    lang_code_to_id t tgt w2 = (w3, inr bos) /\
    model_generate m moved (generate_kw bos) w3 = (w4, inr outputs) /\
    tokenizer_decode t outputs true w4 = (w_end, inr translation).

(** A computation whose every run relates the state it starts in to the state
    it ends in (whatever its outcome). *)
Definition respects (rel : State -> State -> Prop) {A : Type} (m : M A) : Prop :=
  forall st, rel st (fst (m st)).

(** A loaded flag that is set stays set. *)
Definition loaded_stays (st st' : State) : Prop :=
  loaded (self st) = true -> loaded (self st') = true.

(** Only interactions that are no part of a load were added. *)
Definition no_load_since (st st' : State) : Prop :=
  exists evs : list event,
    trace st' = (trace st ++ evs)%list /\ Forall (fun ev => ~ load_event ev) evs.

(** The translator object was left as it was. *)
Definition same_self (st st' : State) : Prop := self st' = self st.

(** A computation that never clears the loaded flag. *)
Definition keeps_loaded {A : Type} (m : M A) : Prop := respects loaded_stays m.

(** A loaded translator has a tokenizer and a model. *)
Definition loaded_has_model (t : NLLBTranslator) : Prop :=
  loaded t = true -> is_Some (tokenizer t) /\ is_Some (model t).

(** Only interactions that satisfy [P] were added. *)
Definition only_adds (P : event -> Prop) (st st' : State) : Prop :=
  exists evs : list event, trace st' = (trace st ++ evs)%list /\ Forall P evs.

(** A final response: a document printed without [flush] (the loading notice
    of [load_model] is the one print that flushes). *)
Definition is_response (ev : event) : bool :=
  match ev with
  | EPrintJson _ _ false => true
  | _ => false
  end.

(** Neither a final response nor a read of standard input. *)
Definition inner_event (ev : event) : Prop :=
  is_response ev = false /\ ev <> EStdinRead.

(** The translator keeps having its tokenizer and model when loaded. *)
Definition has_model_stays (st st' : State) : Prop :=
  loaded_has_model (self st) -> loaded_has_model (self st').

(** A computation that never ends in [OutOfFuel]. *)
Definition never_out_of_fuel {A : Type} (m : M A) : Prop :=
  forall st, snd (m st) <> OutOfFuel.

(** The four shapes of a response of [translate]. *)
Definition translate_response (st : State) (source_lang target_lang : pyval)
    (r : list (string * pyval)) : Prop :=
  (exists translation, r = success_response translation source_lang target_lang) \/
  (exists e, is_Exception e = true /\ r = translation_error_response e) \/
  r = model_not_found_response (model_path (self st)) \/
  (exists e, is_Exception e = true /\ r = load_error_response e).

(** The three shapes of a response of [load_model]. *)
Definition load_response (st : State) (r : list (string * pyval)) : Prop :=
  r = model_not_found_response (model_path (self st)) \/
  (exists e, is_Exception e = true /\ r = load_error_response e) \/
  r = loaded_response.

(** The interactions [load_model] and [translate] can add: the ones of a
    load, and the five of the [try] block of [translate], the lookup of a
    language token always naming a tag of the table. *)
Inductive service_event : event -> Prop :=
| service_load ev : load_event ev -> service_event ev
| service_tokenize t text kw : service_event (ETokenizerCall t text kw)
| service_move inputs dev : service_event (EInputsTo inputs dev)
| service_lang t code : code ∈ lang_tags -> service_event (ELangCodeToId t code)
| service_generate m inputs kw : service_event (EGenerate m inputs kw)
| service_decode t outputs skip : service_event (EDecode t outputs skip).


End Service.

(** ** A small runtime to run the script on

    An echo model over a list of existing paths and a queue of standard-input
    reads: the tokenizer maps a [str] to its character codes (at most
    [max_length] of them), [generate] puts the forced language token in front,
    [decode] drops the language tokens again.  The theorems are stated for
    every runtime; this one evaluates them on concrete requests. *)
Module Demo.

Record world : Type := mkWorld {
  paths : list string;
  stdin : list (exn + string)
}.

Definition path_exists (p : string) (w : world) : bool :=
  existsb (String.eqb p) (paths w).

Definition load_from (p : string) (w : world) : world * (exn + unit) :=
  if path_exists p w then (w, inr tt)
  else (w, inl (Exc (OtherException "OSError") (p +:+ " is not a model directory"))).

Definition lang_ids : list (string * Z) :=
  [ ("eng_Latn", 256047); ("spa_Latn", 256161); ("fra_Latn", 256057);
    ("deu_Latn", 256042); ("ita_Latn", 256077); ("por_Latn", 256141);
    ("rus_Cyrl", 256147); ("jpn_Jpan", 256079); ("kor_Hang", 256098);
    ("zho_Hans", 256200); ("arb_Arab", 256011); ("hin_Deva", 256068) ].

Fixpoint lang_id (code : string) (table : list (string * Z)) : exn + Z :=
  match table with
  | [] => inl (Exc KeyError ("'" +:+ code +:+ "'"))
  | (c, n) :: rest => if String.eqb c code then inr n else lang_id code rest
  end.

Definition encode (text : pyval) (kw : tokenizer_kwargs) : exn + list Z :=
  match text with
  | PStr s =>
      let ids := map (fun c => Z.of_nat (nat_of_ascii c)) (list_ascii_of_string s) in
      inr (if truncation kw then take (Z.to_nat (tok_max_length kw)) ids else ids)
  | _ => inl (Exc (OtherException "ValueError") "text input must be of type str")
  end.

Definition decode (ids : list Z) (skip_special_tokens : bool) : string :=
  string_of_list_ascii
    (map (fun n => ascii_of_nat (Z.to_nat n))
       (filter (fun n => n < 256 \/ skip_special_tokens = false) ids)).

Definition read_all (w : world) : world * (exn + string) :=
  match stdin w with
  | item :: rest => (mkWorld (paths w) rest, item)
  | [] => (w, inr "")
  end.

Definition read_line (prompt : string) (w : world) : world * (exn + string) :=
  match stdin w with
  | item :: rest => (mkWorld (paths w) rest, item)
  | [] => (w, inl (Exc EOFError "EOF when reading a line"))
  end.

Definition quoted (s : string) : string :=
  String (ascii_of_nat 34) s +:+ String (ascii_of_nat 34) "".

(** Three request texts and what they parse to. *)
Definition ping_request : string :=
  "{" +:+ quoted "action" +:+ ": " +:+ quoted "ping" +:+ "}".

Definition translate_without_text : string :=
  "{" +:+ quoted "action" +:+ ": " +:+ quoted "translate" +:+ "}".

Definition empty_request : string := "{}".

Definition parse (s : string) : exn + pyval :=
  if String.eqb s ping_request then inr (PDict [("action", PStr "ping")])
  else if String.eqb s translate_without_text then inr (PDict [("action", PStr "translate")])
  else if String.eqb s empty_request then inr (PDict [])
  else inl (Exc JSONDecodeError "Expecting value: line 1 column 1 (char 0)").

#[export] Instance runtime : Runtime := {|
  World := world;
  Tokenizer := unit;
  Model := unit;
  Encoding := list Z;
  Generated := list Z;
  os_path_exists := path_exists;
  AutoTokenizer_from_pretrained := load_from;
  AutoModelForSeq2SeqLM_from_pretrained := fun p _ _ => load_from p;
  model_to := fun m _ w => (w, inr m);
  tokenizer_call := fun _ text kw w => (w, encode text kw);
  inputs_to := fun inputs _ w => (w, inr inputs);
  lang_code_to_id := fun _ code w => (w, lang_id code lang_ids);
  model_generate := fun _ inputs kw w => (w, inr (forced_bos_token_id kw :: inputs));
  tokenizer_decode := fun _ outputs skip w => (w, inr (decode outputs skip));
  sys_stdin_read := read_all;
  input := read_line;
  json_loads := parse
|}.

(** A translator whose model directory exists and is loaded. *)
Definition loaded_translator : NLLBTranslator :=
  mkTranslator "/models/nllb" "cpu" (Some tt) (Some tt) true.

Definition loaded_state : State :=
  mkState (mkWorld ["/models/nllb"] []) loaded_translator [].

(** A fresh translator whose model directory is missing. *)
Definition missing_state : State :=
  mkState (mkWorld [] []) (NLLBTranslator_init "/models/absent" "cpu") [].

Definition json_args : Args := mkArgs "/models/nllb" "cpu" false.

End Demo.

(** The demo runtime with a reader for three more request texts (a load
    request carrying a stray key, a translate request without language keys,
    an empty array) and a directory that holds a tokenizer and no model. *)
Module DemoRequests.

Definition load_request : string :=
  "{" +:+ Demo.quoted "action" +:+ ": " +:+ Demo.quoted "load" +:+ ", "
      +:+ Demo.quoted "text" +:+ ": " +:+ Demo.quoted "ignored" +:+ "}".

Definition hello_request : string :=
  "{" +:+ Demo.quoted "action" +:+ ": " +:+ Demo.quoted "translate" +:+ ", "
      +:+ Demo.quoted "text" +:+ ": " +:+ Demo.quoted "Hello" +:+ "}".

Definition parse (s : string) : exn + pyval :=
  if String.eqb s load_request
  then inr (PDict [("action", PStr "load"); ("text", PStr "ignored")])
  else if String.eqb s hello_request
  then inr (PDict [("action", PStr "translate"); ("text", PStr "Hello")])
  else if String.eqb s "[]" then inr (PList [])
  else Demo.parse s.

Definition load_model_from (p : string) (w : Demo.world) : Demo.world * (exn + unit) :=
  if String.eqb p "/models/tokenizer-only"
  then (w, inl (Exc (OtherException "OSError") "no file named pytorch_model.bin"))
  else Demo.load_from p w.

Definition runtime : Runtime := {|
  World := Demo.world;
  Tokenizer := unit;
  Model := unit;
  Encoding := list Z;
  Generated := list Z;
  os_path_exists := Demo.path_exists;
  AutoTokenizer_from_pretrained := Demo.load_from;
  AutoModelForSeq2SeqLM_from_pretrained := fun p _ _ => load_model_from p;
  model_to := fun m _ w => (w, inr m);
  tokenizer_call := fun _ text kw w => (w, Demo.encode text kw);
  inputs_to := fun inputs _ w => (w, inr inputs);
  lang_code_to_id := fun _ code w => (w, Demo.lang_id code Demo.lang_ids);
  model_generate := fun _ inputs kw w => (w, inr (forced_bos_token_id kw :: inputs));
  tokenizer_decode := fun _ outputs skip w => (w, inr (Demo.decode outputs skip));
  sys_stdin_read := Demo.read_all;
  input := Demo.read_line;
  json_loads := parse
|}.

(** Where both directories exist and standard input holds [lines]. *)
Definition world_with (lines : list (exn + string)) : Demo.world :=
  Demo.mkWorld ["/models/nllb"; "/models/tokenizer-only"] lines.

(** A fresh translator on [path], in that world with nothing to read. *)
Definition fresh_state (path : string) : @State runtime :=
  @mkState runtime (world_with []) (NLLBTranslator_init path "cpu") [].

(** The loaded translator of the demo, in that world with [lines] to read. *)
Definition loaded_translator : @NLLBTranslator runtime :=
  @mkTranslator runtime "/models/nllb" "cpu" (Some tt) (Some tt) true.

Definition loaded_state (lines : list (exn + string)) : @State runtime :=
  @mkState runtime (world_with lines) loaded_translator [].

Definition json_args : Args := mkArgs "/models/nllb" "cpu" false.

End DemoRequests.

(** The demo runtime with a reader that answers as CPython's [json.loads]
    does on five more texts: it accepts the literal [NaN], parses [null] and
    [5], gives up on 2000 nested arrays with [RecursionError] and on an
    integer of 4301 digits with [ValueError], neither of them a
    [JSONDecodeError]. *)
Module DemoStdlib.

Fixpoint repeat_char (n : nat) (c : ascii) : string :=
  match n with
  | O => EmptyString
  | S n' => String c (repeat_char n' c)
  end.

Definition deep_array : string := repeat_char 2000 "["%char.

Definition huge_action : string :=
  "{" +:+ Demo.quoted "action" +:+ ": " +:+ repeat_char 4301 "1"%char +:+ "}".

Definition recursion_error : exn :=
  Exc (OtherException "RecursionError")
    "maximum recursion depth exceeded while decoding a JSON array from a unicode string".

Definition digits_error : exn :=
  Exc (OtherException "ValueError")
    "Exceeds the limit (4300 digits) for integer string conversion: value has 4301 digits; use sys.set_int_max_str_digits() to increase the limit".


Definition parse (s : string) : exn + pyval :=
  if String.eqb s "NaN" then inr (PFloat "NaN")
  else if String.eqb s "null" then inr PNone
  else if String.eqb s "5" then inr (PInt 5)
  else if String.eqb s deep_array then inl recursion_error
  else if String.eqb s huge_action then inl digits_error
  else Demo.parse s.

Definition runtime : Runtime := {|
  World := Demo.world;
  Tokenizer := unit;
  Model := unit;
  Encoding := list Z;
  Generated := list Z;
  os_path_exists := Demo.path_exists;
  AutoTokenizer_from_pretrained := Demo.load_from;
  AutoModelForSeq2SeqLM_from_pretrained := fun p _ _ => Demo.load_from p;
  model_to := fun m _ w => (w, inr m);
  tokenizer_call := fun _ text kw w => (w, Demo.encode text kw);
  inputs_to := fun inputs _ w => (w, inr inputs);
  lang_code_to_id := fun _ code w => (w, Demo.lang_id code Demo.lang_ids);
  model_generate := fun _ inputs kw w => (w, inr (forced_bos_token_id kw :: inputs));
  tokenizer_decode := fun _ outputs skip w => (w, inr (Demo.decode outputs skip));
  sys_stdin_read := Demo.read_all;
  input := Demo.read_line;
  json_loads := parse
|}.

(** One JSON-mode run, and what it ends with when it prints [response]. *)
Definition run (item : exn + string) : @State runtime * result unit :=
  @main runtime 0 Demo.json_args (Demo.mkWorld [] [item]).

Definition answered (response : list (string * pyval)) : @State runtime * result unit :=
  (@mkState runtime (Demo.mkWorld [] []) (NLLBTranslator_init "/models/nllb" "cpu")
     [EStdinRead; EPrintJson response None false],
   Ok tt).

End DemoStdlib.

(** * Properties *)

(** ** The language table *)

Lemma lang_codes_miss (s : string) :
  s ∉ supported_codes -> lang_codes !! s = None.
Proof.
  intros Hs. unfold lang_codes.
  apply not_elem_of_list_to_map. exact Hs.
Qed.

(** C2: the language table has exactly 12 entries; each of the 12 supported
    short codes maps to its documented locale tag; and for every string that
    is not one of them, [translate]'s source code resolves to ["eng_Latn"] and
    its target code to ["spa_Latn"]. *)
Theorem lang_codes_lookup :
  size lang_codes = 12%nat /\
  (lang_codes !! "en" = Some "eng_Latn" /\
   lang_codes !! "es" = Some "spa_Latn" /\
   lang_codes !! "fr" = Some "fra_Latn" /\
   lang_codes !! "de" = Some "deu_Latn" /\
   lang_codes !! "it" = Some "ita_Latn" /\
   lang_codes !! "pt" = Some "por_Latn" /\
   lang_codes !! "ru" = Some "rus_Cyrl" /\
   lang_codes !! "ja" = Some "jpn_Jpan" /\
   lang_codes !! "ko" = Some "kor_Hang" /\
   lang_codes !! "zh" = Some "zho_Hans" /\
   lang_codes !! "ar" = Some "arb_Arab" /\
   lang_codes !! "hi" = Some "hin_Deva") /\
  (forall s : string,
     s ∉ ["en"; "es"; "fr"; "de"; "it"; "pt"; "ru"; "ja"; "ko"; "zh"; "ar"; "hi"] ->
     src_code (PStr s) = Ok "eng_Latn" /\ tgt_code (PStr s) = Ok "spa_Latn").
Proof.
  split; [ vm_compute; reflexivity | ].
  split; [ repeat split; vm_compute; reflexivity | ].
  intros s Hs.
  unfold src_code, tgt_code, lang_codes_get.
  rewrite (lang_codes_miss s Hs). split; reflexivity.
Qed.

(** ** [strip] on UTF-8 text *)

Lemma byte_back (n : N) : (n < 256)%N -> N_of_ascii (ascii_of_N n) = n.
Proof. apply N_ascii_embedding. Qed.

(** Decides the comparisons of the goal by linear arithmetic. *)
Ltac settle_tests :=
  repeat match goal with
         | |- context [(?x <? ?y)%N] =>
             first [ replace (x <? y)%N with true by (symmetry; apply N.ltb_lt; lia)
                   | replace (x <? y)%N with false by (symmetry; apply N.ltb_ge; lia) ]
         | |- context [(?x <=? ?y)%N] =>
             first [ replace (x <=? y)%N with true by (symmetry; apply N.leb_le; lia)
                   | replace (x <=? y)%N with false by (symmetry; apply N.leb_gt; lia) ]
         end.

Lemma is_space_above (code : N) : (12288 < code)%N -> is_space code = false.
Proof.
  intros H. unfold is_space. settle_tests.
  repeat match goal with
         | |- context [(?x =? ?y)%N] =>
             replace (x =? y)%N with false by (symmetry; apply N.eqb_neq; lia)
         end.
  reflexivity.
Qed.

Lemma split64 (n : N) : exists q r : N, n = (64 * q + r)%N /\ (r < 64)%N /\ (n / 64 = q)%N /\ (n mod 64 = r)%N.
Proof.
  exists (n / 64)%N, (n mod 64)%N. repeat split.
  - apply N.div_mod. lia.
  - apply N.mod_lt. lia.
Qed.

(** One code point in front: dropped when it is whitespace, kept with all
    that follows otherwise. *)
Lemma lstrip_utf8_char (code : N) (s : string) :
  (code < 1114112)%N ->
  lstrip (utf8_char code +:+ s) =
    if is_space code then lstrip s else utf8_char code +:+ s.
Proof.
  intros Hcode. unfold utf8_char. cbv zeta beta.
  replace (code / 4096)%N with (code / 64 / 64)%N by (rewrite N.Div0.div_div; reflexivity).
  replace (code / 262144)%N with (code / 64 / 64 / 64)%N
    by (rewrite !N.Div0.div_div; reflexivity).
  destruct (split64 code) as (q1 & r1 & Hc & Hr1 & -> & ->).
  destruct (split64 q1) as (q2 & r2 & Hq1 & Hr2 & -> & ->).
  destruct (split64 q2) as (q3 & r3 & Hq2 & Hr3 & -> & ->).
  destruct (code <? 128)%N eqn:H1; [ apply N.ltb_lt in H1 | apply N.ltb_ge in H1 ].
  { cbv beta iota delta [String.append]. cbn [lstrip].
    rewrite byte_back by lia. settle_tests. reflexivity. }
  destruct (code <? 2048)%N eqn:H2; [ apply N.ltb_lt in H2 | apply N.ltb_ge in H2 ].
  { cbv beta iota delta [String.append]. cbn [lstrip].
    rewrite !byte_back by lia. unfold is_continuation. settle_tests. cbn [andb].
    replace (code2 (192 + q1) (128 + r1)) with code by (unfold code2; lia).
    reflexivity. }
  destruct (code <? 65536)%N eqn:H3; [ apply N.ltb_lt in H3 | apply N.ltb_ge in H3 ].
  { cbv beta iota delta [String.append]. cbn [lstrip].
    rewrite !byte_back by lia. unfold is_continuation. settle_tests. cbn [andb].
    replace (code3 (224 + q2) (128 + r2) (128 + r1)) with code by (unfold code3; lia).
    settle_tests. reflexivity. }
  cbv beta iota delta [String.append]. cbn [lstrip].
  rewrite !byte_back by lia. unfold is_continuation. settle_tests. cbn [andb].
  rewrite is_space_above by lia. reflexivity.
Qed.

Lemma string_append_cons (c : ascii) (s t : string) : String c s +:+ t = String c (s +:+ t).
Proof. reflexivity. Qed.

Lemma string_append_empty_r (s : string) : s +:+ "" = s.
Proof. induction s as [|c s IH]; [ reflexivity | ]. rewrite string_append_cons, IH. reflexivity. Qed.

Lemma string_append_assoc (s t u : string) : (s +:+ t) +:+ u = s +:+ (t +:+ u).
Proof.
  induction s as [|c s IH]; [ reflexivity | ]. rewrite !string_append_cons, IH. reflexivity.
Qed.

Lemma string_rev_app_append (s t u : string) :
  String.rev_app s t +:+ u = String.rev_app s (t +:+ u).
Proof.
  revert t. induction s as [|c s IH]; intros t; cbn [String.rev_app]; [ reflexivity | ].
  rewrite IH. reflexivity.
Qed.

Lemma string_rev_cons (c : ascii) (s : string) :
  String.rev (String c s) = String.rev s +:+ String c "".
Proof. unfold String.rev. cbn [String.rev_app]. rewrite string_rev_app_append. reflexivity. Qed.

Lemma string_rev_append (s t : string) :
  String.rev (s +:+ t) = String.rev t +:+ String.rev s.
Proof.
  induction s as [|c s IH].
  - cbn. rewrite string_append_empty_r. reflexivity.
  - rewrite string_append_cons, !string_rev_cons, IH, string_append_assoc. reflexivity.
Qed.

Lemma string_rev_rev (s : string) : String.rev (String.rev s) = s.
Proof.
  induction s as [|c s IH]; [ reflexivity | ].
  rewrite string_rev_cons, string_rev_append, IH. reflexivity.
Qed.

Lemma lstrip_reversed_utf8_char (code : N) (r : string) :
  (code < 1114112)%N ->
  lstrip_reversed (String.rev (utf8_char code) +:+ r) =
    if is_space code then lstrip_reversed r else String.rev (utf8_char code) +:+ r.
Proof.
  intros Hcode. unfold utf8_char. cbv zeta beta.
  replace (code / 4096)%N with (code / 64 / 64)%N by (rewrite N.Div0.div_div; reflexivity).
  replace (code / 262144)%N with (code / 64 / 64 / 64)%N
    by (rewrite !N.Div0.div_div; reflexivity).
  destruct (split64 code) as (q1 & r1 & Hc & Hr1 & -> & ->).
  destruct (split64 q1) as (q2 & r2 & Hq1 & Hr2 & -> & ->).
  destruct (split64 q2) as (q3 & r3 & Hq2 & Hr3 & -> & ->).
  destruct (code <? 128)%N eqn:H1; [ apply N.ltb_lt in H1 | apply N.ltb_ge in H1 ].
  { cbv beta iota delta [String.rev String.rev_app String.append]. cbn [lstrip_reversed].
    rewrite byte_back by lia. settle_tests. reflexivity. }
  destruct (code <? 2048)%N eqn:H2; [ apply N.ltb_lt in H2 | apply N.ltb_ge in H2 ].
  { cbv beta iota delta [String.rev String.rev_app String.append]. cbn [lstrip_reversed].
    rewrite !byte_back by lia. unfold is_continuation. settle_tests. cbn [andb].
    replace (code2 (192 + q1) (128 + r1)) with code by (unfold code2; lia).
    reflexivity. }
  destruct (code <? 65536)%N eqn:H3; [ apply N.ltb_lt in H3 | apply N.ltb_ge in H3 ].
  { cbv beta iota delta [String.rev String.rev_app String.append]. cbn [lstrip_reversed].
    rewrite !byte_back by lia. unfold is_continuation. settle_tests. cbn [andb].
    replace (code3 (224 + q2) (128 + r2) (128 + r1)) with code by (unfold code3; lia).
    settle_tests. reflexivity. }
  cbv beta iota delta [String.rev String.rev_app String.append]. cbn [lstrip_reversed].
  rewrite !byte_back by lia. unfold is_continuation. settle_tests. cbn [andb].
  rewrite is_space_above by lia. reflexivity.
Qed.

(** One code point at the end. *)
Lemma rstrip_utf8_char (code : N) (s : string) :
  (code < 1114112)%N ->
  rstrip (s +:+ utf8_char code) =
    if is_space code then rstrip s else s +:+ utf8_char code.
Proof.
  intros Hcode. unfold rstrip.
  rewrite string_rev_append, lstrip_reversed_utf8_char by exact Hcode.
  destruct (is_space code); [ reflexivity | ].
  rewrite <- string_rev_append, string_rev_rev. reflexivity.
Qed.

Lemma utf8_app (l1 l2 : list N) : utf8 (l1 ++ l2) = utf8 l1 +:+ utf8 l2.
Proof.
  induction l1 as [|c l1 IH]; [ reflexivity | ].
  cbn [utf8 app]. rewrite IH, string_append_assoc. reflexivity.
Qed.

Lemma lstrip_utf8 (codes : list N) :
  Forall code_point codes -> lstrip (utf8 codes) = utf8 (lstrip_codes codes).
Proof.
  induction 1 as [|code rest Hcode _ IH]; [ reflexivity | ].
  cbn [utf8 lstrip_codes]. rewrite lstrip_utf8_char by exact Hcode.
  destruct (is_space code); [ exact IH | reflexivity ].
Qed.

Lemma rstrip_utf8 (codes : list N) :
  Forall code_point codes -> rstrip (utf8 codes) = utf8 (rstrip_codes codes).
Proof.
  induction codes as [|code rest IH] using rev_ind; intros Hall; [ reflexivity | ].
  apply Forall_app in Hall as [Hrest Hcode]. apply Forall_inv in Hcode.
  rewrite utf8_app. cbn [utf8]. rewrite string_append_empty_r.
  rewrite rstrip_utf8_char by exact Hcode.
  unfold rstrip_codes. rewrite rev_app_distr. cbn [rev app lstrip_codes].
  destruct (is_space code).
  - apply IH, Hrest.
  - cbn [rev]. rewrite rev_involutive, utf8_app. cbn [utf8].
    rewrite string_append_empty_r. reflexivity.
Qed.

Lemma lstrip_codes_valid (codes : list N) :
  Forall code_point codes -> Forall code_point (lstrip_codes codes).
Proof.
  induction 1 as [|code rest Hcode Hrest IH]; cbn [lstrip_codes]; [ constructor | ].
  destruct (is_space code); [ exact IH | constructor; assumption ].
Qed.

(** [strip] on the UTF-8 bytes is [strip] on the code points, for every
    sequence of code points: it removes exactly the leading and trailing
    whitespace characters of Python, of one, two or three bytes. *)
Theorem strip_utf8 (codes : list N) :
  Forall code_point codes -> strip (utf8 codes) = utf8 (strip_codes codes).
Proof.
  intros Hall. unfold strip, strip_codes.
  rewrite lstrip_utf8 by exact Hall.
  apply rstrip_utf8, lstrip_codes_valid, Hall.
Qed.

(** On the lines a terminal can send: a no-break space and an em space around
    the quit word, a lone no-break space (blank), ASCII blanks, an accented
    letter, a zero-width space (no whitespace), a character of four bytes. *)
Lemma strip_examples :
  strip (utf8 [160; 113; 117; 105; 116; 8195]%N) = "quit" /\
  strip (utf8 [160]%N) = "" /\
  strip "  a b  " = "a b" /\
  strip (utf8 [32; 233; 32]%N) = utf8 [233]%N /\
  strip (utf8 [97; 8203]%N) = utf8 [97; 8203]%N /\
  strip (utf8 [12288; 128512; 133]%N) = utf8 [128512]%N.
Proof. repeat split; vm_compute; reflexivity. Qed.

Section Facts.
Context {R : Runtime}.

(** ** Stepping through the monad *)

Lemma bind_Ok {A B : Type} (m : M A) (k : A -> M B) st st1 a :
  m st = (st1, Ok a) -> bind m k st = k a st1.
Proof. intros H. unfold bind. rewrite H. reflexivity. Qed.

Lemma bind_Raise {A B : Type} (m : M A) (k : A -> M B) st st1 e :
  m st = (st1, Raise e) -> bind m k st = (st1, Raise e).
Proof. intros H. unfold bind. rewrite H. reflexivity. Qed.

Lemma call_answer {A : Type} (ev : event) (f : World -> World * (exn + A)) st w r :
  f (world st) = (w, r) ->
  call ev f st = (mkState w (self st) (trace st ++ [ev]), of_sum r).
Proof. intros H. unfold call. rewrite H. reflexivity. Qed.

(** ** [load_model] on a missing path *)

(** C4: when the configured model path does not exist, [load_model] returns
    the [model_not_found] response, whose error message names the path, and
    leaves the translator as it was: a loaded flag that was false is still
    false (the only interaction is the existence test). *)
Theorem load_model_missing_path (st : State) :
  os_path_exists (model_path (self st)) (world st) = false ->
  load_model st =
    (mkState (world st) (self st) (trace st ++ [EPathExists (model_path (self st))]),
     Ok [ ("error", PStr ("Model not found at " +:+ model_path (self st)));
          ("status", PStr "model_not_found") ]) /\
  self (fst (load_model st)) = self st /\
  (loaded (self st) = false -> loaded (self (fst (load_model st))) = false).
Proof.
  intros Hmissing.
  assert (Hrun : load_model st =
    (mkState (world st) (self st) (trace st ++ [EPathExists (model_path (self st))]),
     Ok (model_not_found_response (model_path (self st))))).
  { unfold load_model, try_except, load_model_body, bind, get_self, query, ret.
    cbn. rewrite Hmissing. reflexivity. }
  rewrite Hrun. cbn. repeat split; auto.
Qed.

(** ** Implicit load in [translate] *)

Lemma load_failures_carry_error (path : string) (e : exn) :
  items_has_key (model_not_found_response path) "error" = true /\
  items_has_key (load_error_response e) "error" = true /\
  items_has_key loaded_response "error" = false.
Proof. repeat split. Qed.

(** C3: a [translate] call made while the loaded flag is false first runs
    [load_model]; when that load returns a result carrying an ["error"] key,
    [translate] returns that very result (and stops in the state the load
    left), with no [translation_error] wrapper. *)
Theorem translate_propagates_load_failure
    (text source_lang target_lang : pyval) (st st' : State)
    (load_result : list (string * pyval)) :
  loaded (self st) = false ->
  load_model st = (st', Ok load_result) ->
  items_has_key load_result "error" = true ->
  translate text source_lang target_lang st = (st', Ok load_result).
Proof.
  intros Hflag Hload Herr.
  unfold translate, ensure_loaded.
  unfold bind at 1 2. unfold get_self. rewrite Hflag. cbn.
  unfold bind. rewrite Hload, Herr. reflexivity.
Qed.

(** ** The JSON mode *)

Lemma py_eq_str_true (v : pyval) (s : string) :
  py_eq_str v s = true <-> v = PStr s.
Proof.
  destruct v; cbn; try (split; [discriminate | intros H; discriminate H]).
  rewrite String.eqb_eq. split; [intros -> | intros [= ->]]; reflexivity.
Qed.

Lemma action_is_not (items : list (string * pyval)) (s : string) :
  items_lookup items "action" <> Some (PStr s) ->
  py_eq_str (default PNone (items_lookup items "action")) s = false.
Proof.
  intros Hne. destruct (py_eq_str _ s) eqn:Heq; [ | reflexivity ].
  apply py_eq_str_true in Heq. exfalso. apply Hne.
  destruct (items_lookup items "action"); cbn in Heq; congruence.
Qed.


(** C7 (amended): for a request that [json.loads] returns as a JSON object
    whose ["action"] is neither ["load"] nor ["translate"] (the key may be
    absent), the JSON mode prints exactly
    [{"error": "Unknown action", "status": "error"}] and returns.  (A valid
    document that is no object, or one the parser gives up on, is answered by
    the generic handler: the last section runs three such requests.) *)
Theorem main_json_unknown_action
    (fuel : nat) (args : Args) (w w' : World) (payload : string)
    (items : list (string * pyval)) :
  args_interactive args = false ->
  sys_stdin_read w = (w', inr payload) ->
  json_loads payload = inr (PDict items) ->
  items_lookup items "action" <> Some (PStr "load") ->
  items_lookup items "action" <> Some (PStr "translate") ->
  main fuel args w =
    (mkState w' (NLLBTranslator_init (args_model_path args) (args_device args))
       [ EStdinRead;
         EPrintJson [ ("error", PStr "Unknown action"); ("status", PStr "error") ]
           None false ],
     Ok tt).
Proof.
  intros Hmode Hread Hparse Hload Htranslate.
  unfold main. rewrite Hmode.
  unfold main_json, try_except.
  rewrite (bind_Ok _ _ _ _ payload
             (call_answer EStdinRead sys_stdin_read (initial_state args w) _ _ Hread)).
  unfold bind, lift, dispatch, bind, lift. cbn. rewrite Hparse. cbn.
  rewrite (action_is_not items "load" Hload).
  rewrite (action_is_not items "translate" Htranslate).
  reflexivity.
Qed.

(** C10: for a request that is a JSON object with action ["translate"] and no
    ["text"] key, [input_data["text"]] raises [KeyError] before [translate] is
    called; the generic handler catches it and the one response printed is
    [{"error": "Unexpected error: 'text'", "status": "error"}]: status
    ["error"], a message that begins with ["Unexpected error:"], and neither
    a [translation_error] nor a [json_error] response. *)
Theorem main_json_translate_without_text
    (fuel : nat) (args : Args) (w w' : World) (payload : string)
    (items : list (string * pyval)) :
  args_interactive args = false ->
  sys_stdin_read w = (w', inr payload) ->
  json_loads payload = inr (PDict items) ->
  items_lookup items "action" = Some (PStr "translate") ->
  items_lookup items "text" = None ->
  exists message : string,
    main fuel args w =
      (mkState w' (NLLBTranslator_init (args_model_path args) (args_device args))
         [ EStdinRead;
           EPrintJson [ ("error", PStr message); ("status", PStr "error") ]
             None false ],
       Ok tt) /\
    message = "Unexpected error: 'text'" /\
    String.prefix "Unexpected error:" message = true.
Proof.
  intros Hmode Hread Hparse Haction Htext.
  exists "Unexpected error: 'text'". split; [ | split; reflexivity ].
  unfold main. rewrite Hmode.
  unfold main_json, try_except.
  rewrite (bind_Ok _ _ _ _ payload
             (call_answer EStdinRead sys_stdin_read (initial_state args w) _ _ Hread)).
  unfold bind, lift, dispatch, bind, lift. cbn. rewrite Hparse. cbn.
  rewrite Haction. cbn. rewrite Htext. reflexivity.
Qed.


(** ** The interactive mode *)

(** C9: in the interactive loop, when the line read at the text prompt is
    ["quit"] (after [strip] and [lower]), the loop ends normally on that turn:
    the only interaction of the turn is the ["Text: "] prompt, so the source
    and target prompts are not reached, [translate] is not called, and no
    response is printed. *)
Theorem interactive_quit (fuel : nat) (st : State) (w' : World) (line : string) :
  input "Text: " (world st) = (w', inr line) ->
  lower (strip line) = "quit" ->
  interactive_loop (S fuel) st =
    (mkState w' (self st) (trace st ++ [EInput "Text: "]), Ok tt).
Proof.
  intros Hread Hquit.
  cbn [interactive_loop]. unfold interactive_turn.
  unfold bind at 1. unfold try_except.
  rewrite (bind_Ok _ _ _ _ line (call_answer _ _ _ _ _ Hread)).
  rewrite Hquit. cbn. reflexivity.
Qed.

(** The whole interactive run when the first line is the quit word: the two
    banner lines, the text prompt, and a normal return. *)
Lemma main_interactive_quit_at_once
    (fuel : nat) (args : Args) (w w' : World) (line : string) :
  args_interactive args = true ->
  input "Text: " w = (w', inr line) ->
  lower (strip line) = "quit" ->
  main (S fuel) args w =
    (mkState w' (NLLBTranslator_init (args_model_path args) (args_device args))
       [ EPrint "NLLB Translator Interactive Mode";
         EPrint "Enter 'quit' to exit";
         EInput "Text: " ],
     Ok tt).
Proof.
  intros Hmode Hread Hquit.
  unfold main. rewrite Hmode.
  unfold main_interactive, print.
  unfold bind at 1 2. cbn [emit initial_state world self trace app].
  cbn [interactive_loop]. unfold interactive_turn.
  unfold bind at 1. unfold try_except.
  unfold bind at 1. unfold call at 1. cbn [world self trace].
  rewrite Hread. cbn [of_sum]. rewrite Hquit. reflexivity.
Qed.

(** ** What [load_model] can return *)

Lemma load_model_results (st st' : State) (r : list (string * pyval)) :
  load_model st = (st', Ok r) ->
  r = model_not_found_response (model_path (self st)) \/
  (exists e, r = load_error_response e) \/
  (r = loaded_response /\ loaded (self st') = true /\
   is_Some (tokenizer (self st')) /\ is_Some (model (self st')) /\
   device (self st') = device (self st) /\
   exists evs : list event, trace st' = (trace st ++ evs)%list /\ Forall load_event evs).
Proof.
  unfold load_model, try_except, load_model_body.
  unfold bind, get_self, query, print_json, emit, call, set_tokenizer, set_model,
    set_loaded, ret.
  cbn.
  destruct (os_path_exists _ _); cbn.
  2:{ intros [= <- <-]. left. reflexivity. }
  destruct (AutoTokenizer_from_pretrained _ _) as [w1 [e|t]]; cbn.
  { destruct (is_Exception e); intros [= <- <-]. right. left. eauto. }
  destruct (AutoModelForSeq2SeqLM_from_pretrained _ _ _ _) as [w2 [e|m]]; cbn.
  { destruct (is_Exception e); intros [= <- <-]. right. left. eauto. }
  destruct (String.eqb (device (self st)) "cpu") eqn:Hcpu; cbn.
  - destruct (model_to _ _ _) as [w3 [e|m']]; cbn.
    { destruct (is_Exception e); intros [= <- <-]. right. left. eauto. }
    intros [= <- <-]. right. right. cbn.
    repeat split; eauto.
    eexists. rewrite <- !app_assoc. split; [ reflexivity | ].
    repeat constructor.
  - intros [= <- <-]. right. right. cbn.
    repeat split; eauto.
    eexists. rewrite <- !app_assoc. split; [ reflexivity | ].
    repeat constructor.
Qed.

(** ** A successful [translate] *)

Lemma lang_codes_get_hashable (key : pyval) (dflt : string) :
  hashable key = true -> exists code, lang_codes_get key dflt = Ok code.
Proof. destruct key; cbn; intros H; try discriminate H; eauto. Qed.

Lemma translate_body_success
    (text source_lang target_lang : pyval) (st : State)
    (t : Tokenizer) (m : Model) (tgt : string) (inputs moved : Encoding) (bos : Z)
    (outputs : Generated) (translation : string) (w_end : World) :
  tokenizer (self st) = Some t ->
  model (self st) = Some m ->
  hashable source_lang = true ->
  tgt_code target_lang = Ok tgt ->
  translation_succeeds (self st) t m text tgt (world st) inputs moved bos outputs
    translation w_end ->
  translate_body text source_lang target_lang st =
    (mkState w_end (self st)
       (trace st ++ translate_events (self st) t m text tgt inputs moved bos outputs),
     Ok (success_response translation source_lang target_lang)).
Proof.
  intros Htok Hmodel Hsrc Htgt (w1 & w2 & w3 & w4 & H1 & H2 & H3 & H4 & H5).
  destruct (lang_codes_get_hashable source_lang "eng_Latn" Hsrc) as [src Hsrc'].
  unfold translate_body, translate_events.
  unfold bind, get_self, lift, the_tokenizer, the_model, call, ret.
  unfold src_code. rewrite Hsrc', Htgt, Htok, Hmodel. cbn.
  rewrite H1. cbn.
  destruct (String.eqb (device (self st)) "cpu"); cbn in *.
  - injection H2 as <- <-. cbn.
    rewrite H3. cbn. rewrite H4. cbn. rewrite H5. cbn.
    rewrite <- !app_assoc. reflexivity.
  - rewrite H2. cbn.
    rewrite H3. cbn. rewrite H4. cbn. rewrite H5. cbn.
    rewrite <- !app_assoc. reflexivity.
Qed.

Lemma translate_body_success_inv
    (text source_lang target_lang : pyval) (st st' : State)
    (r : list (string * pyval)) :
  translate_body text source_lang target_lang st = (st', Ok r) ->
  exists t m tgt inputs moved bos outputs translation,
    tokenizer (self st) = Some t /\
    model (self st) = Some m /\
    hashable source_lang = true /\
    tgt_code target_lang = Ok tgt /\
    translation_succeeds (self st) t m text tgt (world st) inputs moved bos outputs
      translation (world st') /\
    st' = mkState (world st') (self st)
            (trace st ++ translate_events (self st) t m text tgt inputs moved bos outputs) /\
    r = success_response translation source_lang target_lang.
Proof.
  unfold translate_body, translate_events, translation_succeeds.
  unfold bind, get_self, lift, the_tokenizer, the_model, call, ret, raise.
  destruct (src_code source_lang) as [src| |] eqn:Hsrc; try discriminate.
  destruct (tgt_code target_lang) as [tgt| |] eqn:Htgt; try discriminate.
  destruct (tokenizer (self st)) as [t|] eqn:Htok; cbn; try discriminate.
  destruct (tokenizer_call t text tokenizer_kw (world st)) as [w1 [e|inputs]] eqn:H1;
    cbn; try discriminate.
  assert (Hhash : hashable source_lang = true).
  { destruct source_lang; try reflexivity; discriminate Hsrc. }
  destruct (String.eqb (device (self st)) "cpu") eqn:Hcpu; cbn.
  - destruct (lang_code_to_id t tgt w1) as [w3 [e|bos]] eqn:H3; cbn; try discriminate.
    destruct (model (self st)) as [m|] eqn:Hmodel; cbn; try discriminate.
    destruct (model_generate m inputs (generate_kw bos) w3) as [w4 [e|outputs]] eqn:H4;
      cbn; try discriminate.
    destruct (tokenizer_decode t outputs true w4) as [w5 [e|translation]] eqn:H5;
      cbn; try discriminate.
    intros [= <- <-]. cbn.
    exists t, m, tgt, inputs, inputs, bos, outputs, translation.
    rewrite <- !app_assoc.
    repeat split; try reflexivity; try assumption.
    exists w1, w1, w3, w4. repeat split; assumption.
  - destruct (inputs_to inputs (device (self st)) w1) as [w2 [e|moved]] eqn:H2;
      cbn; try discriminate.
    destruct (lang_code_to_id t tgt w2) as [w3 [e|bos]] eqn:H3; cbn; try discriminate.
    destruct (model (self st)) as [m|] eqn:Hmodel; cbn; try discriminate.
    destruct (model_generate m moved (generate_kw bos) w3) as [w4 [e|outputs]] eqn:H4;
      cbn; try discriminate.
    destruct (tokenizer_decode t outputs true w4) as [w5 [e|translation]] eqn:H5;
      cbn; try discriminate.
    intros [= <- <-]. cbn.
    exists t, m, tgt, inputs, moved, bos, outputs, translation.
    rewrite <- !app_assoc.
    repeat split; try reflexivity; try assumption.
    exists w1, w2, w3, w4. repeat split; assumption.
Qed.

(** [translate], with the guard before its [try] written out. *)
Lemma translate_unfold (text source_lang target_lang : pyval) (st : State) :
  translate text source_lang target_lang st =
    let guarded :=
      try_except (translate_body text source_lang target_lang)
        [ (is_Exception, fun e => ret (translation_error_response e)) ] in
    if loaded (self st) then guarded st
    else
      match load_model st with
      | (st1, Ok load_result) =>
          if items_has_key load_result "error" then (st1, Ok load_result)
          else guarded st1
      | (st1, Raise e) => (st1, Raise e)
      | (st1, OutOfFuel) => (st1, OutOfFuel)
      end.
Proof.
  unfold translate, ensure_loaded.
  unfold bind at 1 2. unfold get_self.
  destruct (loaded (self st)); cbn; [ reflexivity | ].
  unfold bind.
  destruct (load_model st) as [st1 [load_result|e|]]; try reflexivity.
  destruct (items_has_key load_result "error"); reflexivity.
Qed.

Lemma guarded_translate_success
    (text source_lang target_lang : pyval) (st st' : State)
    (r : list (string * pyval)) :
  try_except (translate_body text source_lang target_lang)
    [ (is_Exception, fun e => ret (translation_error_response e)) ] st = (st', Ok r) ->
  items_lookup r "status" = Some (PStr "success") ->
  translate_body text source_lang target_lang st = (st', Ok r).
Proof.
  unfold try_except.
  destruct (translate_body text source_lang target_lang st) as [st2 [r2|e|]];
    cbn; try discriminate; [ auto | ].
  destruct (is_Exception e); cbn; try discriminate.
  unfold ret. intros [= <- <-]. cbn. discriminate.
Qed.

(** C1 (amended): on a loaded translator (flag set, tokenizer and model in
    place), when the language codes are hashable values (every [str] is) and
    tokenization, the lookup of the target language's token id, generation and
    decoding succeed, [translate] returns the response with status
    ["success"], the decoded string as ["translation"] (whatever it is, the
    empty string included), the [source_lang] and [target_lang] values of the
    call echoed as they were passed, and model ["nllb-200"]. *)
Theorem translate_success_response
    (text source_lang target_lang : pyval) (st : State)
    (t : Tokenizer) (m : Model) (tgt : string) (inputs moved : Encoding) (bos : Z)
    (outputs : Generated) (translation : string) (w_end : World) :
  loaded (self st) = true ->
  tokenizer (self st) = Some t ->
  model (self st) = Some m ->
  hashable source_lang = true ->
  tgt_code target_lang = Ok tgt ->
  translation_succeeds (self st) t m text tgt (world st) inputs moved bos outputs
    translation w_end ->
  exists st' : State,
    translate text source_lang target_lang st =
      (st', Ok [ ("status", PStr "success");
                 ("translation", PStr translation);
                 ("source_lang", source_lang);
                 ("target_lang", target_lang);
                 ("model", PStr "nllb-200") ]) /\
    world st' = w_end /\ self st' = self st.
Proof.
  intros Hflag Htok Hmodel Hsrc Htgt Hrun.
  eexists. rewrite translate_unfold. cbn zeta. rewrite Hflag.
  unfold try_except.
  rewrite (translate_body_success _ _ _ _ _ _ _ _ _ _ _ _ _
             Htok Hmodel Hsrc Htgt Hrun).
  repeat split.
Qed.

(** C5: every [translate] call that returns a ["success"] response tokenized
    the input text with truncation at maximum length 512, looked up the token
    id of the resolved target-language code and passed it to [generate] as
    the forced first token, and called [generate] with 4 beams, sampling off,
    early stopping on and maximum length 512.  These interactions follow the
    ones of the implicit load (if the translator was not loaded yet), in this
    order, the move of the inputs to the device being skipped on ["cpu"]. *)
Theorem translate_success_calls
    (text source_lang target_lang : pyval) (st st' : State)
    (r : list (string * pyval)) :
  translate text source_lang target_lang st = (st', Ok r) ->
  items_lookup r "status" = Some (PStr "success") ->
  exists (st1 : State) (t : Tokenizer) (m : Model) (tgt : string)
         (inputs moved : Encoding) (bos : Z) (outputs : Generated)
         (translation : string),
    (loaded (self st) = true /\ st1 = st \/
     loaded (self st) = false /\ load_model st = (st1, Ok loaded_response)) /\
    tokenizer (self st1) = Some t /\
    model (self st1) = Some m /\
    tgt_code target_lang = Ok tgt /\
    translation_succeeds (self st1) t m text tgt (world st1) inputs moved bos outputs
      translation (world st') /\
    trace st' =
      (trace st1
       ++ [ ETokenizerCall t text
              {| return_tensors := "pt"; padding := true; truncation := true;
                 tok_max_length := 512 |} ]
       ++ (if negb (String.eqb (device (self st1)) "cpu")
           then [EInputsTo inputs (device (self st1))] else [])
       ++ [ ELangCodeToId t tgt;
            EGenerate m moved
              {| forced_bos_token_id := bos; max_length := 512; num_beams := 4;
                 early_stopping := true; do_sample := false |};
            EDecode t outputs true ])%list /\
    r = success_response translation source_lang target_lang.
Proof.
  intros Hrun Hstatus.
  rewrite translate_unfold in Hrun. cbn zeta in Hrun.
  assert (Hbody : exists st1,
    (loaded (self st) = true /\ st1 = st \/
     loaded (self st) = false /\ load_model st = (st1, Ok loaded_response)) /\
    translate_body text source_lang target_lang st1 = (st', Ok r)).
  { destruct (loaded (self st)) eqn:Hflag.
    - exists st. split; [ left; split; reflexivity | ].
      apply guarded_translate_success; assumption.
    - destruct (load_model st) as [st1 [load_result|e|]] eqn:Hload; try discriminate.
      exists st1.
      destruct (load_model_results _ _ _ Hload) as [-> | [[e ->] | [-> _]]].
      + cbn in Hrun. injection Hrun as <- <-. discriminate Hstatus.
      + cbn in Hrun. injection Hrun as <- <-. discriminate Hstatus.
      + cbn in Hrun. split; [ right; split; reflexivity | ].
        apply guarded_translate_success; assumption. }
  destruct Hbody as (st1 & Hst1 & Hbody).
  destruct (translate_body_success_inv _ _ _ _ _ _ Hbody)
    as (t & m & tgt & inputs & moved & bos & outputs & translation &
        Htok & Hmodel & _ & Htgt & Hsteps & Hst' & Hr).
  exists st1, t, m, tgt, inputs, moved, bos, outputs, translation.
  repeat split; try assumption.
  rewrite Hst' at 1. reflexivity.
Qed.

(** ** Relations every run respects *)

Section Respects.
Variable rel : State -> State -> Prop.
Hypothesis rel_refl : forall st, rel st st.
Hypothesis rel_trans : forall st1 st2 st3, rel st1 st2 -> rel st2 st3 -> rel st1 st3.

Lemma respects_ret {A : Type} (a : A) : respects rel (ret a).
Proof. intros st. apply rel_refl. Qed.

Lemma respects_raise {A : Type} (e : exn) : respects rel (@raise R A e).
Proof. intros st. apply rel_refl. Qed.

Lemma respects_lift {A : Type} (r : result A) : respects rel (lift r).
Proof. intros st. apply rel_refl. Qed.

Lemma respects_out_of_fuel {A : Type} : respects rel (@out_of_fuel R A).
Proof. intros st. apply rel_refl. Qed.

Lemma respects_get_self : respects rel get_self.
Proof. intros st. apply rel_refl. Qed.

Lemma respects_bind {A B : Type} (m : M A) (k : A -> M B) :
  respects rel m -> (forall a, respects rel (k a)) -> respects rel (bind m k).
Proof.
  intros Hm Hk st. unfold bind.
  specialize (Hm st). destruct (m st) as [st1 [a|e|]]; cbn in *; try assumption.
  eapply rel_trans; [ exact Hm | apply Hk ].
Qed.

Lemma respects_try_except {A : Type} (body : M A)
    (clauses : list ((exn -> bool) * (exn -> M A))) :
  respects rel body ->
  Forall (fun clause => forall e, respects rel (snd clause e)) clauses ->
  respects rel (try_except body clauses).
Proof.
  intros Hbody Hclauses st. unfold try_except.
  specialize (Hbody st). destruct (body st) as [st1 [a|e|]]; cbn in *; try assumption.
  assert (Hfound : forall h, find_handler clauses e = Some h -> respects rel h).
  { clear Hbody. induction Hclauses as [|[accepts handler] rest Hhead _ IH]; cbn.
    - discriminate.
    - destruct (accepts e); [ intros h [= <-]; apply Hhead | exact IH ]. }
  destruct (find_handler clauses e) as [h|] eqn:Hfind; cbn; [ | assumption ].
  eapply rel_trans; [ exact Hbody | apply (Hfound h eq_refl) ].
Qed.

End Respects.

Lemma loaded_stays_refl (st : State) : loaded_stays st st.
Proof. intros H. exact H. Qed.

Lemma loaded_stays_trans (st1 st2 st3 : State) :
  loaded_stays st1 st2 -> loaded_stays st2 st3 -> loaded_stays st1 st3.
Proof. unfold loaded_stays. auto. Qed.

Lemma no_load_since_refl (st : State) : no_load_since st st.
Proof. exists []. rewrite app_nil_r. split; [ reflexivity | constructor ]. Qed.

Lemma no_load_since_trans (st1 st2 st3 : State) :
  no_load_since st1 st2 -> no_load_since st2 st3 -> no_load_since st1 st3.
Proof.
  intros (evs1 & H1 & F1) (evs2 & H2 & F2). exists (evs1 ++ evs2)%list.
  rewrite H2, H1, app_assoc. split; [ reflexivity | ].
  apply Forall_app; split; assumption.
Qed.

(** The primitives: none clears the flag, and the only write of the flag in
    the script stores [True]. *)
Lemma keeps_loaded_emit (ev : event) : respects loaded_stays (emit ev).
Proof. intros st H. exact H. Qed.

Lemma keeps_loaded_call {A : Type} (ev : event) (f : World -> World * (exn + A)) :
  respects loaded_stays (call ev f).
Proof. intros st H. unfold call. destruct (f (world st)). exact H. Qed.

Lemma keeps_loaded_query {A : Type} (ev : event) (f : World -> A) :
  respects loaded_stays (query ev f).
Proof. intros st H. exact H. Qed.

Lemma keeps_loaded_set_tokenizer (t : Tokenizer) : respects loaded_stays (set_tokenizer t).
Proof. intros st H. exact H. Qed.

Lemma keeps_loaded_set_model (m : Model) : respects loaded_stays (set_model m).
Proof. intros st H. exact H. Qed.

Lemma keeps_loaded_set_loaded_true : respects loaded_stays (set_loaded true).
Proof. intros st H. reflexivity. Qed.

Lemma no_load_emit (ev : event) : ~ load_event ev -> respects no_load_since (emit ev).
Proof.
  intros Hev st. exists [ev]. split; [ reflexivity | ].
  constructor; [ exact Hev | constructor ].
Qed.

Lemma no_load_call {A : Type} (ev : event) (f : World -> World * (exn + A)) :
  ~ load_event ev -> respects no_load_since (call ev f).
Proof.
  intros Hev st. unfold call. destruct (f (world st)). exists [ev].
  split; [ reflexivity | ]. constructor; [ exact Hev | constructor ].
Qed.

(** Combinators first, then the primitives, splitting on every test. *)
Ltac respects_steps refl trans prims :=
  repeat first
    [ apply (respects_bind _ trans); [ | intros ? ]
    | apply (respects_try_except _ trans);
      [ | repeat (constructor; [ intros ?; cbn [snd] | ]); try constructor ]
    | apply (respects_ret _ refl)
    | apply (respects_raise _ refl)
    | apply (respects_lift _ refl)
    | apply (respects_get_self _ refl)
    | apply (respects_out_of_fuel _ refl)
    | prims
    | match goal with
      | |- respects _ (if ?b then _ else _) => destruct b
      | |- respects _ (match ?x with _ => _ end) => destruct x
      end ].

Ltac keeps_loaded_prims :=
  first [ apply keeps_loaded_emit | apply keeps_loaded_call | apply keeps_loaded_query
        | apply keeps_loaded_set_tokenizer | apply keeps_loaded_set_model
        | apply keeps_loaded_set_loaded_true ].

Ltac keeps_loaded_steps :=
  respects_steps loaded_stays_refl loaded_stays_trans keeps_loaded_prims.

Lemma keeps_loaded_load_model : keeps_loaded load_model.
Proof.
  unfold keeps_loaded, load_model, load_model_body, print_json.
  keeps_loaded_steps.
Qed.

Lemma keeps_loaded_translate (text source_lang target_lang : pyval) :
  keeps_loaded (translate text source_lang target_lang).
Proof.
  unfold keeps_loaded, translate, ensure_loaded.
  apply (respects_bind _ loaded_stays_trans).
  - apply (respects_bind _ loaded_stays_trans); [ apply (respects_get_self _ loaded_stays_refl) | ].
    intros s. destruct (negb (loaded s)); [ | apply (respects_ret _ loaded_stays_refl) ].
    apply (respects_bind _ loaded_stays_trans); [ apply keeps_loaded_load_model | ].
    intros r. keeps_loaded_steps.
  - intros [r|]; [ apply (respects_ret _ loaded_stays_refl) | ].
    unfold translate_body, the_tokenizer, the_model. keeps_loaded_steps.
Qed.

Lemma keeps_loaded_dispatch (input_data : pyval) : keeps_loaded (dispatch input_data).
Proof.
  unfold keeps_loaded, dispatch.
  apply (respects_bind _ loaded_stays_trans); [ apply (respects_lift _ loaded_stays_refl) | ].
  intros action. destruct (py_eq_str action "load"); [ apply keeps_loaded_load_model | ].
  apply (respects_bind _ loaded_stays_trans); [ apply (respects_lift _ loaded_stays_refl) | ].
  intros action'. destruct (py_eq_str action' "translate");
    [ | apply (respects_ret _ loaded_stays_refl) ].
  repeat (apply (respects_bind _ loaded_stays_trans);
          [ apply (respects_lift _ loaded_stays_refl) | intros ? ]).
  apply keeps_loaded_translate.
Qed.

Lemma keeps_loaded_main_json : keeps_loaded main_json.
Proof.
  unfold keeps_loaded, main_json, print_json.
  apply (respects_try_except _ loaded_stays_trans).
  - apply (respects_bind _ loaded_stays_trans); [ apply keeps_loaded_call | intros payload ].
    apply (respects_bind _ loaded_stays_trans);
      [ apply (respects_lift _ loaded_stays_refl) | intros input_data ].
    apply (respects_bind _ loaded_stays_trans);
      [ apply keeps_loaded_dispatch | intros r; apply keeps_loaded_emit ].
  - repeat (constructor; [ intros e; apply keeps_loaded_emit | ]).
    constructor.
Qed.

Lemma keeps_loaded_interactive_turn : keeps_loaded interactive_turn.
Proof.
  unfold keeps_loaded, interactive_turn, print_json.
  apply (respects_try_except _ loaded_stays_trans).
  - apply (respects_bind _ loaded_stays_trans); [ apply keeps_loaded_call | intros line ].
    destruct (String.eqb _ "quit"); [ apply (respects_ret _ loaded_stays_refl) | ].
    apply (respects_bind _ loaded_stays_trans); [ apply keeps_loaded_call | intros source ].
    apply (respects_bind _ loaded_stays_trans); [ apply keeps_loaded_call | intros target ].
    apply (respects_bind _ loaded_stays_trans); [ apply keeps_loaded_translate | intros r ].
    keeps_loaded_steps.
  - constructor; [ intros e; apply (respects_ret _ loaded_stays_refl) | constructor ].
Qed.

Lemma keeps_loaded_interactive_loop (fuel : nat) : keeps_loaded (interactive_loop fuel).
Proof.
  unfold keeps_loaded.
  induction fuel as [|fuel IH]; cbn [interactive_loop].
  - apply (respects_out_of_fuel _ loaded_stays_refl).
  - apply (respects_bind _ loaded_stays_trans); [ apply keeps_loaded_interactive_turn | ].
    intros [|]; [ apply (respects_ret _ loaded_stays_refl) | exact IH ].
Qed.

Lemma translate_body_no_load (text source_lang target_lang : pyval) :
  respects no_load_since
    (try_except (translate_body text source_lang target_lang)
       [ (is_Exception, fun e => ret (translation_error_response e)) ]).
Proof.
  unfold translate_body, the_tokenizer, the_model.
  respects_steps no_load_since_refl no_load_since_trans
    ltac:(apply no_load_call; intros Hev; inversion Hev).
Qed.

Lemma keeps_loaded_main_interactive (fuel : nat) : keeps_loaded (main_interactive fuel).
Proof.
  unfold keeps_loaded, main_interactive, print.
  repeat (apply (respects_bind _ loaded_stays_trans); [ apply keeps_loaded_emit | intros _ ]).
  apply keeps_loaded_interactive_loop.
Qed.

(** C8: once the loaded flag is true, no operation clears it: it is still
    true after [load_model], after [translate], after the handling of a
    request in JSON mode, and after any number of turns of the interactive
    loop, whatever the outcome of the run (the class has no other operation,
    and its only write of the flag stores [True]); and a [translate] call on
    a loaded translator adds no interaction of a load to the trace. *)
Theorem loaded_flag_never_cleared (st : State) :
  loaded (self st) = true ->
  loaded (self (fst (load_model st))) = true /\
  (forall text source_lang target_lang : pyval,
     loaded (self (fst (translate text source_lang target_lang st))) = true) /\
  (forall input_data : pyval, loaded (self (fst (dispatch input_data st))) = true) /\
  loaded (self (fst (main_json st))) = true /\
  (forall fuel : nat,
     loaded (self (fst (interactive_loop fuel st))) = true /\
     loaded (self (fst (main_interactive fuel st))) = true) /\
  (forall text source_lang target_lang : pyval,
     exists evs : list event,
       trace (fst (translate text source_lang target_lang st)) = (trace st ++ evs)%list /\
       Forall (fun ev => ~ load_event ev) evs).
Proof.
  intros Hflag. repeat split.
  - apply keeps_loaded_load_model, Hflag.
  - intros. apply keeps_loaded_translate, Hflag.
  - intros. apply keeps_loaded_dispatch, Hflag.
  - apply keeps_loaded_main_json, Hflag.
  - apply keeps_loaded_interactive_loop, Hflag.
  - apply keeps_loaded_main_interactive, Hflag.
  - intros. rewrite translate_unfold. cbn zeta. rewrite Hflag.
    apply translate_body_no_load.
Qed.

(** ** A loaded translator has its tokenizer and model *)

Lemma load_model_has_model (st : State) :
  loaded_has_model (self st) -> loaded_has_model (self (fst (load_model st))).
Proof.
  intros Hinv.
  unfold load_model, try_except, load_model_body.
  unfold bind, get_self, query, print_json, emit, call, set_tokenizer, set_model,
    set_loaded, ret.
  cbn.
  destruct (os_path_exists _ _); cbn; [ | exact Hinv ].
  destruct (AutoTokenizer_from_pretrained _ _) as [w1 [e|t]]; cbn.
  { destruct (is_Exception e); exact Hinv. }
  destruct (AutoModelForSeq2SeqLM_from_pretrained _ _ _ _) as [w2 [e|m]]; cbn.
  { destruct (is_Exception e); cbn; intros Hl; cbn in Hl;
      destruct (Hinv Hl) as [_ Hm]; split; cbn; eauto. }
  destruct (String.eqb (device (self st)) "cpu"); cbn.
  - destruct (model_to _ _ _) as [w3 [e|m']]; cbn.
    + destruct (is_Exception e); cbn; intros _; split; cbn; eauto.
    + intros _; split; cbn; eauto.
  - intros _; split; cbn; eauto.
Qed.

Lemma same_self_refl (st : State) : same_self st st.
Proof. reflexivity. Qed.

Lemma same_self_trans (st1 st2 st3 : State) :
  same_self st1 st2 -> same_self st2 st3 -> same_self st1 st3.
Proof. unfold same_self. congruence. Qed.

Lemma same_self_call {A : Type} (ev : event) (f : World -> World * (exn + A)) :
  respects same_self (call ev f).
Proof. intros st. unfold call. destruct (f (world st)). reflexivity. Qed.

Lemma translate_body_same_self (text source_lang target_lang : pyval) :
  respects same_self
    (try_except (translate_body text source_lang target_lang)
       [ (is_Exception, fun e => ret (translation_error_response e)) ]).
Proof.
  unfold translate_body, the_tokenizer, the_model.
  respects_steps same_self_refl same_self_trans ltac:(apply same_self_call).
Qed.

Lemma translate_has_model (text source_lang target_lang : pyval) (st : State) :
  loaded_has_model (self st) ->
  loaded_has_model (self (fst (translate text source_lang target_lang st))).
Proof.
  intros Hinv. rewrite translate_unfold. cbn zeta.
  destruct (loaded (self st)).
  - rewrite translate_body_same_self. exact Hinv.
  - pose proof (load_model_has_model st Hinv) as Hload.
    destruct (load_model st) as [st1 [load_result|e|]]; cbn in *; try exact Hload.
    destruct (items_has_key load_result "error"); cbn; [ exact Hload | ].
    rewrite translate_body_same_self. exact Hload.
Qed.

Lemma fresh_translator_has_model (path dev : string) :
  loaded_has_model (NLLBTranslator_init path dev).
Proof. intros Hflag. discriminate Hflag. Qed.

(** * Further properties of the script *)

(** ** [load_model]: outcomes, interactions, what a failure leaves *)

(** Runs [load_model] symbolically: unfolds it and splits on every answer of
    the runtime. *)
Ltac run_load_model :=
  unfold load_model, try_except, load_model_body;
  unfold bind, get_self, query, print_json, emit, call, set_tokenizer, set_model,
    set_loaded, ret;
  cbn;
  repeat match goal with
         | |- context [os_path_exists ?p ?w] =>
             destruct (os_path_exists p w) eqn:?; cbn
         | |- context [AutoTokenizer_from_pretrained ?p ?w] =>
             destruct (AutoTokenizer_from_pretrained p w) as [? [?|?]] eqn:?; cbn
         | |- context [AutoModelForSeq2SeqLM_from_pretrained ?p ?d ?dm ?w] =>
             destruct (AutoModelForSeq2SeqLM_from_pretrained p d dm w) as [? [?|?]] eqn:?;
             cbn
         | |- context [model_to ?m ?d ?w] =>
             destruct (model_to m d w) as [? [?|?]] eqn:?; cbn
         | |- context [String.eqb (device ?s) "cpu"] =>
             destruct (String.eqb (device s) "cpu") eqn:?; cbn
         | |- context [is_Exception ?e] => destruct (is_Exception e) eqn:?; cbn
         end.

(** X1: [load_model] reports every failure of class [Exception] as a result:
    a run either returns one of its three responses (with the loaded flag set
    when the response is the [loaded] one), or propagates an exception that is
    no [Exception] (a [KeyboardInterrupt], a [SystemExit]). *)
Theorem load_model_outcomes (st : State) :
  (exists r : list (string * pyval),
     snd (load_model st) = Ok r /\
     (r = model_not_found_response (model_path (self st)) \/
      (exists e, is_Exception e = true /\ r = load_error_response e) \/
      (r = loaded_response /\ loaded (self (fst (load_model st))) = true))) \/
  (exists e : exn, snd (load_model st) = Raise e /\ is_Exception e = false).
Proof.
  run_load_model;
    first
      [ left; eexists; split; [ reflexivity | ];
        first [ left; reflexivity
              | right; left; eexists; split; [ eassumption | reflexivity ]
              | right; right; split; reflexivity ]
      | right; eexists; split; [ reflexivity | assumption ] ].
Qed.

(** X2: whenever [load_model] returns a response without an ["error"] key,
    the path existed and it printed the flushed loading notice, loaded the
    tokenizer and then the model from the configured path, with [float32] and
    no device map on ["cpu"] (followed by the move of the model to ["cpu"])
    and with [float16] and device map ["auto"] on any other device (and no
    move), in this order and nothing else.  The translator then holds the
    very tokenizer [from_pretrained] returned and the model that the move
    returned (on ["cpu"]) or that [from_pretrained] returned (elsewhere),
    with the flag set, in the world the last call left.  The flag the
    translator had before plays no part: an explicit load of a loaded
    translator loads again. *)
Theorem load_model_success_calls (st st' : State) (r : list (string * pyval)) :
  load_model st = (st', Ok r) ->
  items_has_key r "error" = false ->
  exists (t : Tokenizer) (m0 m : Model) (w1 w2 : World),
    r = loaded_response /\
    os_path_exists (model_path (self st)) (world st) = true /\
    AutoTokenizer_from_pretrained (model_path (self st)) (world st) = (w1, inr t) /\
    AutoModelForSeq2SeqLM_from_pretrained (model_path (self st))
      (if String.eqb (device (self st)) "cpu" then float32 else float16)
      (if String.eqb (device (self st)) "cpu" then None else Some "auto") w1
      = (w2, inr m0) /\
    (if String.eqb (device (self st)) "cpu"
     then model_to m0 "cpu" w2 = (world st', inr m)
     else world st' = w2 /\ m = m0) /\
    self st' =
      mkTranslator (model_path (self st)) (device (self st)) (Some m) (Some t) true /\
    trace st' =
      (trace st
       ++ [ EPathExists (model_path (self st));
            EPrintJson [ ("status", PStr "loading");
                         ("message", PStr "Loading NLLB model...") ] None true;
            ETokenizerFromPretrained (model_path (self st));
            EModelFromPretrained (model_path (self st))
              (if String.eqb (device (self st)) "cpu" then float32 else float16)
              (if String.eqb (device (self st)) "cpu" then None else Some "auto") ]
       ++ (if String.eqb (device (self st)) "cpu" then [EModelTo m0 "cpu"] else []))%list.
Proof.
  unfold load_model, try_except, load_model_body.
  unfold bind, get_self, query, print_json, emit, call, set_tokenizer, set_model,
    set_loaded, ret.
  cbn.
  destruct (os_path_exists _ _) eqn:Hexists; cbn.
  2:{ intros [= <- <-] Hkey. discriminate Hkey. }
  destruct (AutoTokenizer_from_pretrained _ _) as [w1 [e|t]] eqn:Htok; cbn.
  { destruct (is_Exception e); cbn; intros [= <- <-] Hkey || discriminate.
    discriminate Hkey. }
  destruct (String.eqb (device (self st)) "cpu") eqn:Hcpu; cbn.
  - destruct (AutoModelForSeq2SeqLM_from_pretrained _ _ _ _) as [w2 [e|m0]] eqn:Hmodel;
      cbn.
    { destruct (is_Exception e); cbn; intros [= <- <-] Hkey || discriminate.
      discriminate Hkey. }
    destruct (model_to _ _ _) as [w3 [e|m]] eqn:Hmove; cbn.
    { destruct (is_Exception e); cbn; intros [= <- <-] Hkey || discriminate.
      discriminate Hkey. }
    intros [= <- <-] _. cbn.
    exists t, m0, m, w1, w2. rewrite <- !app_assoc.
    repeat split; try reflexivity; assumption.
  - destruct (AutoModelForSeq2SeqLM_from_pretrained _ _ _ _) as [w2 [e|m0]] eqn:Hmodel;
      cbn.
    { destruct (is_Exception e); cbn; intros [= <- <-] Hkey || discriminate.
      discriminate Hkey. }
    intros [= <- <-] _. cbn.
    exists t, m0, m0, w1, w2. rewrite <- !app_assoc.
    repeat split; try reflexivity; assumption.
Qed.

(** X3: [load_model] never changes the model path or the device, never takes
    a tokenizer or model away, and changes the loaded flag only in a run that
    returns the [loaded] response: after a failed or interrupted load the flag
    is what it was (while the tokenizer may already be the new one). *)
Theorem load_model_failure_keeps_flag (st : State) :
  model_path (self (fst (load_model st))) = model_path (self st) /\
  device (self (fst (load_model st))) = device (self st) /\
  (is_Some (tokenizer (self st)) -> is_Some (tokenizer (self (fst (load_model st))))) /\
  (is_Some (model (self st)) -> is_Some (model (self (fst (load_model st))))) /\
  (snd (load_model st) <> Ok loaded_response ->
   loaded (self (fst (load_model st))) = loaded (self st)).
Proof.
  run_load_model; repeat split; eauto; intros H; try reflexivity;
    exfalso; apply H; reflexivity.
Qed.


(** ** [translate]: outcomes, edge cases, composition with the load *)

Lemma load_model_cases (st : State) :
  exists st' : State,
    fst (load_model st) = st' /\
    (snd (load_model st) = Ok (model_not_found_response (model_path (self st))) \/
     (exists e, is_Exception e = true /\ snd (load_model st) = Ok (load_error_response e)) \/
     (snd (load_model st) = Ok loaded_response /\ loaded (self st') = true) \/
     (exists e, is_Exception e = false /\ snd (load_model st) = Raise e)).
Proof.
  eexists. split; [ reflexivity | ].
  run_load_model; eauto 8.
Qed.

(** Runs the guarded [try] block of [translate] symbolically. *)
Ltac run_translate_body :=
  unfold try_except, translate_body;
  unfold bind, get_self, lift, the_tokenizer, the_model, call, ret, raise;
  cbn;
  repeat match goal with
         | |- context [src_code ?v] => destruct (src_code v) as [?| ?|] eqn:?; cbn
         | |- context [tgt_code ?v] => destruct (tgt_code v) as [?| ?|] eqn:?; cbn
         | |- context [tokenizer ?s] => destruct (tokenizer s) as [?|] eqn:?; cbn
         | |- context [model ?s] => destruct (model s) as [?|] eqn:?; cbn
         | |- context [tokenizer_call ?t ?x ?k ?w] =>
             destruct (tokenizer_call t x k w) as [? [?|?]] eqn:?; cbn
         | |- context [inputs_to ?i ?d ?w] =>
             destruct (inputs_to i d w) as [? [?|?]] eqn:?; cbn
         | |- context [lang_code_to_id ?t ?c ?w] =>
             destruct (lang_code_to_id t c w) as [? [?|?]] eqn:?; cbn
         | |- context [model_generate ?m ?i ?k ?w] =>
             destruct (model_generate m i k w) as [? [?|?]] eqn:?; cbn
         | |- context [tokenizer_decode ?t ?o ?b ?w] =>
             destruct (tokenizer_decode t o b w) as [? [?|?]] eqn:?; cbn
         | |- context [String.eqb (device ?s) "cpu"] =>
             destruct (String.eqb (device s) "cpu") eqn:?; cbn
         | |- context [is_Exception ?e] => destruct (is_Exception e) eqn:?; cbn
         end.

Lemma lang_codes_get_never_stalls (key : pyval) (dflt : string) :
  lang_codes_get key dflt <> OutOfFuel.
Proof. destruct key; discriminate. Qed.

Lemma lang_codes_get_raises (key : pyval) (dflt : string) (e : exn) :
  lang_codes_get key dflt = Raise e ->
  hashable key = false /\
  e = Exc TypeError ("unhashable type: '" +:+ py_type_name key +:+ "'").
Proof. destruct key; cbn; intros [= <-] || discriminate; split; reflexivity. Qed.

Lemma guarded_translate_cases (text source_lang target_lang : pyval) (st : State) :
  let run :=
    try_except (translate_body text source_lang target_lang)
      [ (is_Exception, fun e => ret (translation_error_response e)) ] st in
  (exists translation,
     snd run = Ok (success_response translation source_lang target_lang)) \/
  (exists e, is_Exception e = true /\ snd run = Ok (translation_error_response e)) \/
  (exists e, is_Exception e = false /\ snd run = Raise e).
Proof.
  cbn zeta.
  pose proof (lang_codes_get_never_stalls source_lang "eng_Latn") as Hsrc.
  pose proof (lang_codes_get_never_stalls target_lang "spa_Latn") as Htgt.
  fold (src_code source_lang) in Hsrc. fold (tgt_code target_lang) in Htgt.
  run_translate_body; try congruence; eauto 8;
    (right; left; eexists; split; [ | reflexivity ]; reflexivity).
Qed.

Lemma translate_run_cases (text source_lang target_lang : pyval) (st : State) :
  (exists r : list (string * pyval),
     snd (translate text source_lang target_lang st) = Ok r /\
     translate_response st source_lang target_lang r) \/
  (exists e : exn,
     snd (translate text source_lang target_lang st) = Raise e /\
     is_Exception e = false).
Proof.
  unfold translate_response.
  assert (Hguarded : forall st1 : State,
    let run :=
      try_except (translate_body text source_lang target_lang)
        [ (is_Exception, fun e => ret (translation_error_response e)) ] st1 in
    (exists r, snd run = Ok r /\
       ((exists translation, r = success_response translation source_lang target_lang) \/
        (exists e, is_Exception e = true /\ r = translation_error_response e) \/
        r = model_not_found_response (model_path (self st)) \/
        (exists e, is_Exception e = true /\ r = load_error_response e))) \/
    (exists e, snd run = Raise e /\ is_Exception e = false)).
  { intros st1.
    destruct (guarded_translate_cases text source_lang target_lang st1)
      as [[tr H] | [(e & He & H) | (e & He & H)]]; cbn zeta in *; rewrite H; eauto 10. }
  rewrite translate_unfold. cbn zeta.
  destruct (loaded (self st)); [ apply Hguarded | ].
  destruct (load_model_cases st) as (st1 & Hst1 & Hcases).
  destruct (load_model st) as [st1' out]; cbn in Hst1, Hcases; subst st1'.
  destruct Hcases as [-> | [(e & He & ->) | [[-> _] | (e & He & ->)]]]; cbn.
  - left. eexists. split; [ reflexivity | ]. right; right; left. reflexivity.
  - left. eexists. split; [ reflexivity | ]. right; right; right. eauto.
  - apply Hguarded.
  - right. eauto.
Qed.

(** X4: [translate] reports every failure of class [Exception] as a result:
    a run either returns a success response (echoing the two language values
    of the call), a [translation_error] response, or one of the two failure
    responses of the implicit load, or it propagates an exception that is no
    [Exception]. *)
Theorem translate_outcomes (text source_lang target_lang : pyval) (st : State) :
  (exists r : list (string * pyval),
     snd (translate text source_lang target_lang st) = Ok r /\
     ((exists translation, r = success_response translation source_lang target_lang) \/
      (exists e, is_Exception e = true /\ r = translation_error_response e) \/
      r = model_not_found_response (model_path (self st)) \/
      (exists e, is_Exception e = true /\ r = load_error_response e))) \/
  (exists e : exn,
     snd (translate text source_lang target_lang st) = Raise e /\
     is_Exception e = false).
Proof.
  apply translate_run_cases.
Qed.


(** X5: on a loaded translator, a language value that is a list or a dict
    (an unhashable key for the table lookup) makes [translate] return the
    [translation_error] response with the [TypeError]'s message, before any
    call of the tokenizer or the model: the state is untouched.  The source
    value is looked up first, so its type is the one named when both are
    unhashable. *)
Theorem translate_unhashable_language
    (text source_lang target_lang : pyval) (st : State) :
  loaded (self st) = true ->
  hashable source_lang = false \/ hashable target_lang = false ->
  exists culprit : pyval,
    (culprit = source_lang \/ hashable source_lang = true /\ culprit = target_lang) /\
    hashable culprit = false /\
    translate text source_lang target_lang st =
      (st, Ok [ ("error", PStr ("Translation failed: unhashable type: '"
                                +:+ py_type_name culprit +:+ "'"));
                ("status", PStr "translation_error") ]).
Proof.
  intros Hflag Hbad.
  destruct (hashable source_lang) eqn:Hsrc.
  - destruct Hbad as [Hbad | Hbad]; [ discriminate Hbad | ].
    exists target_lang. split; [ right; split; reflexivity | ]. split; [ exact Hbad | ].
    rewrite translate_unfold. cbn zeta. rewrite Hflag.
    unfold try_except, translate_body, bind, get_self, lift.
    destruct (lang_codes_get_hashable source_lang "eng_Latn" Hsrc) as [src Heq].
    unfold src_code. rewrite Heq.
    destruct target_lang; try discriminate Hbad; reflexivity.
  - exists source_lang. split; [ left; reflexivity | ]. split; [ exact Hsrc | ].
    rewrite translate_unfold. cbn zeta. rewrite Hflag.
    unfold try_except, translate_body, bind, get_self, lift.
    destruct source_lang; try discriminate Hsrc; reflexivity.
Qed.

Lemma guarded_translate_ignores_source
    (text source1 source2 target_lang : pyval) (st : State) :
  hashable source1 = true ->
  hashable source2 = true ->
  let run1 :=
    try_except (translate_body text source1 target_lang)
      [ (is_Exception, fun e => ret (translation_error_response e)) ] st in
  let run2 :=
    try_except (translate_body text source2 target_lang)
      [ (is_Exception, fun e => ret (translation_error_response e)) ] st in
  fst run1 = fst run2 /\
  ((exists translation,
      snd run1 = Ok (success_response translation source1 target_lang) /\
      snd run2 = Ok (success_response translation source2 target_lang)) \/
   snd run1 = snd run2).
Proof.
  intros H1 H2. cbn zeta.
  destruct (lang_codes_get_hashable source1 "eng_Latn" H1) as [c1 Hc1].
  destruct (lang_codes_get_hashable source2 "eng_Latn" H2) as [c2 Hc2].
  unfold try_except, translate_body.
  unfold bind at 1 2 3. unfold bind at 14 15 16.
  unfold get_self, lift, src_code. rewrite Hc1, Hc2.
  run_translate_body; split; try reflexivity; eauto.
Qed.

(** X6: the source language never reaches the tokenizer or the model: for
    any two hashable source values (any two strings), [translate] makes the
    same calls and ends in the same state, and the two runs either both
    succeed with the same translation, each echoing its own source value, or
    end in the very same outcome. *)
Theorem translate_ignores_source_lang
    (text source1 source2 target_lang : pyval) (st : State) :
  hashable source1 = true ->
  hashable source2 = true ->
  fst (translate text source1 target_lang st) =
    fst (translate text source2 target_lang st) /\
  ((exists translation : string,
      snd (translate text source1 target_lang st) =
        Ok (success_response translation source1 target_lang) /\
      snd (translate text source2 target_lang st) =
        Ok (success_response translation source2 target_lang)) \/
   snd (translate text source1 target_lang st) =
     snd (translate text source2 target_lang st)).
Proof.
  intros H1 H2. rewrite !translate_unfold. cbn zeta.
  destruct (loaded (self st)).
  - apply guarded_translate_ignores_source; assumption.
  - destruct (load_model st) as [st1 [load_result|e|]];
      try (split; [ reflexivity | right; reflexivity ]).
    destruct (items_has_key load_result "error");
      [ split; [ reflexivity | right; reflexivity ] | ].
    apply guarded_translate_ignores_source; assumption.
Qed.

(** X7: the implicit load composes with an explicit one: when an unloaded
    translator's [load_model] returns a response without an ["error"] key,
    [translate] from the same state is [translate] from the state that load
    leaves, which runs the [try] block without a second load. *)
Theorem translate_after_implicit_load
    (text source_lang target_lang : pyval) (st st1 : State)
    (load_result : list (string * pyval)) :
  loaded (self st) = false ->
  load_model st = (st1, Ok load_result) ->
  items_has_key load_result "error" = false ->
  loaded (self st1) = true /\
  translate text source_lang target_lang st =
    translate text source_lang target_lang st1 /\
  translate text source_lang target_lang st1 =
    try_except (translate_body text source_lang target_lang)
      [ (is_Exception, fun e => ret (translation_error_response e)) ] st1.
Proof.
  intros Hflag Hload Hkey.
  assert (Hflag1 : loaded (self st1) = true).
  { destruct (load_model_results _ _ _ Hload) as [-> | [[e ->] | [_ [H _]]]];
      [ discriminate Hkey | discriminate Hkey | exact H ]. }
  split; [ exact Hflag1 | ].
  rewrite !translate_unfold. cbn zeta.
  rewrite Hflag, Hload, Hkey, Hflag1. split; reflexivity.
Qed.


(** ** What a run adds to the trace *)

Lemma only_adds_refl (P : event -> Prop) (st : State) : only_adds P st st.
Proof. exists []. split; [ symmetry; apply app_nil_r | constructor ]. Qed.

Lemma only_adds_trans (P : event -> Prop) (st1 st2 st3 : State) :
  only_adds P st1 st2 -> only_adds P st2 st3 -> only_adds P st1 st3.
Proof.
  intros (evs1 & H1 & F1) (evs2 & H2 & F2). exists (evs1 ++ evs2)%list.
  rewrite H2, H1, app_assoc. split; [ reflexivity | ].
  apply Forall_app; split; assumption.
Qed.

Lemma only_adds_impl (P Q : event -> Prop) (st st' : State) :
  (forall ev, P ev -> Q ev) -> only_adds P st st' -> only_adds Q st st'.
Proof.
  intros HPQ (evs & H & F). exists evs. split; [ exact H | ].
  eapply Forall_impl; [ exact F | exact HPQ ].
Qed.

Lemma only_adds_emit (P : event -> Prop) (ev : event) :
  P ev -> respects (only_adds P) (emit ev).
Proof.
  intros Hev st. exists [ev]. split; [ reflexivity | ].
  constructor; [ exact Hev | constructor ].
Qed.

Lemma only_adds_call {A : Type} (P : event -> Prop) (ev : event)
    (f : World -> World * (exn + A)) :
  P ev -> respects (only_adds P) (call ev f).
Proof.
  intros Hev st. unfold call. destruct (f (world st)). exists [ev].
  split; [ reflexivity | ]. constructor; [ exact Hev | constructor ].
Qed.

Lemma lang_codes_tag (code tag : string) :
  lang_codes !! code = Some tag -> tag ∈ lang_tags.
Proof.
  unfold lang_codes. intros H.
  apply elem_of_list_to_map_2 in H.
  change lang_tags with
    (snd <$> [ ("en", "eng_Latn"); ("es", "spa_Latn"); ("fr", "fra_Latn");
               ("de", "deu_Latn"); ("it", "ita_Latn"); ("pt", "por_Latn");
               ("ru", "rus_Cyrl"); ("ja", "jpn_Jpan"); ("ko", "kor_Hang");
               ("zh", "zho_Hans"); ("ar", "arb_Arab"); ("hi", "hin_Deva") ]).
  apply list_elem_of_fmap. exists (code, tag). split; [ reflexivity | exact H ].
Qed.

Lemma lang_codes_get_tag (key : pyval) (dflt tag : string) :
  dflt ∈ lang_tags -> lang_codes_get key dflt = Ok tag -> tag ∈ lang_tags.
Proof.
  intros Hd. unfold lang_codes_get.
  destruct key; intros [= <-] || discriminate; try exact Hd.
  destruct (lang_codes !! s) as [t|] eqn:Hs; [ | exact Hd ].
  eapply lang_codes_tag, Hs.
Qed.

Lemma tgt_code_tag (target_lang : pyval) (tag : string) :
  tgt_code target_lang = Ok tag -> tag ∈ lang_tags.
Proof.
  apply lang_codes_get_tag. apply (bool_decide_unpack _). vm_compute. reflexivity.
Qed.

(** Closes [only_adds service_event] at the end of a symbolic run. *)
Ltac close_service_trace :=
  unfold only_adds; cbn [trace fst]; rewrite <- ?app_assoc;
  eexists; split;
  [ first [ reflexivity | symmetry; apply app_nil_r ]
  | repeat match goal with
           | |- Forall _ _ => constructor
           | |- service_event (ELangCodeToId _ _) =>
               apply service_lang; eapply tgt_code_tag; eassumption
           | |- service_event _ =>
               first [ apply service_tokenize | apply service_move
                     | apply service_generate | apply service_decode
                     | apply service_load; constructor ]
           end ].

Lemma load_model_adds (st : State) :
  only_adds service_event st (fst (load_model st)).
Proof. run_load_model; close_service_trace. Qed.

Lemma guarded_translate_adds (text source_lang target_lang : pyval) (st : State) :
  only_adds service_event st
    (fst (try_except (translate_body text source_lang target_lang)
            [ (is_Exception, fun e => ret (translation_error_response e)) ] st)).
Proof. run_translate_body; close_service_trace. Qed.

Lemma translate_adds (text source_lang target_lang : pyval) (st : State) :
  only_adds service_event st (fst (translate text source_lang target_lang st)).
Proof.
  rewrite translate_unfold. cbn zeta.
  destruct (loaded (self st)); [ apply guarded_translate_adds | ].
  pose proof (load_model_adds st) as Hload.
  destruct (load_model st) as [st1 [load_result|e|]]; cbn in *; try exact Hload.
  destruct (items_has_key load_result "error"); cbn; [ exact Hload | ].
  eapply only_adds_trans; [ exact Hload | apply guarded_translate_adds ].
Qed.

(** X8: whatever its arguments, [translate] only ever asks the tokenizer for
    the token id of one of the 12 locale tags of the language table: every
    lookup it adds to the trace names such a tag (an unknown or non-string
    target value asks for ["spa_Latn"]). *)
Theorem translate_asks_table_tags
    (text source_lang target_lang : pyval) (st : State) :
  exists evs : list event,
    trace (fst (translate text source_lang target_lang st)) = (trace st ++ evs)%list /\
    Forall (fun ev => forall t code, ev = ELangCodeToId t code ->
              code ∈ [ "eng_Latn"; "spa_Latn"; "fra_Latn"; "deu_Latn"; "ita_Latn";
                       "por_Latn"; "rus_Cyrl"; "jpn_Jpan"; "kor_Hang"; "zho_Hans";
                       "arb_Arab"; "hin_Deva" ]) evs.
Proof.
  destruct (translate_adds text source_lang target_lang st) as (evs & Htrace & Hevs).
  exists evs. split; [ exact Htrace | ].
  eapply Forall_impl; [ exact Hevs | ].
  intros ev Hev t code ->. inversion Hev as [ev' Hload| | |t' code' Hin| |]; subst.
  - inversion Hload.
  - exact Hin.
Qed.


(** ** The JSON mode: one request, one response *)

Lemma service_event_inner (ev : event) : service_event ev -> inner_event ev.
Proof.
  intros Hev. destruct Hev as [ev Hload| | | | |];
    try (split; [ reflexivity | discriminate ]).
  destruct Hload; split; (reflexivity || discriminate).
Qed.

Lemma translate_response_status (st : State) (source_lang target_lang : pyval)
    (r : list (string * pyval)) :
  translate_response st source_lang target_lang r ->
  exists status, items_lookup r "status" = Some (PStr status).
Proof.
  intros [[tr ->] | [(e & _ & ->) | [-> | (e & _ & ->)]]]; eexists; reflexivity.
Qed.

(** [dispatch], with its lookups in the request written out. *)
Lemma dispatch_unfold (input_data : pyval) (st : State) :
  dispatch input_data st =
    match input_data with
    | PDict items =>
        if py_eq_str (default PNone (items_lookup items "action")) "load"
        then load_model st
        else if py_eq_str (default PNone (items_lookup items "action")) "translate"
        then
          match items_lookup items "text" with
          | Some text =>
              translate text
                (default (PStr "en") (items_lookup items "source_lang"))
                (default (PStr "es") (items_lookup items "target_lang")) st
          | None => (st, Raise (Exc KeyError "'text'"))
          end
        else (st, Ok unknown_action_response)
    | _ =>
        (st, Raise (Exc AttributeError
                      ("'" +:+ py_type_name input_data
                       +:+ "' object has no attribute 'get'")))
    end.
Proof.
  unfold dispatch, bind, lift.
  destruct input_data; try reflexivity.
  cbn [py_get py_getitem].
  destruct (py_eq_str (default PNone (items_lookup items "action")) "load");
    [ reflexivity | ].
  destruct (py_eq_str (default PNone (items_lookup items "action")) "translate");
    [ | reflexivity ].
  destruct (items_lookup items "text"); reflexivity.
Qed.

Lemma dispatch_run (input_data : pyval) (st : State) :
  only_adds service_event st (fst (dispatch input_data st)) /\
  ((exists r status,
      snd (dispatch input_data st) = Ok r /\
      items_lookup r "status" = Some (PStr status)) \/
   (exists e, snd (dispatch input_data st) = Raise e)).
Proof.
  rewrite dispatch_unfold.
  destruct input_data;
    try (split; [ apply only_adds_refl | right; eexists; reflexivity ]).
  destruct (py_eq_str (default PNone (items_lookup items "action")) "load").
  - split; [ apply load_model_adds | ].
    destruct (load_model_cases st) as (st' & _ & Hcases).
    destruct Hcases as [-> | [(e & _ & ->) | [[-> _] | (e & _ & ->)]]];
      first [ left; eexists _, _; split; reflexivity | right; eexists; reflexivity ].
  - destruct (py_eq_str (default PNone (items_lookup items "action")) "translate").
    2:{ split; [ apply only_adds_refl | ].
        left. eexists _, _. split; reflexivity. }
    destruct (items_lookup items "text") as [text|].
    2:{ split; [ apply only_adds_refl | right; eexists; reflexivity ]. }
    split; [ apply translate_adds | ].
    destruct (translate_run_cases text
                (default (PStr "en") (items_lookup items "source_lang"))
                (default (PStr "es") (items_lookup items "target_lang")) st)
      as [(r & -> & Hshape) | (e & -> & _)].
    + left. destruct (translate_response_status _ _ _ _ Hshape) as [status Hs].
      exists r, status. split; [ reflexivity | exact Hs ].
    + right. eexists. reflexivity.
Qed.

(** X9: in JSON mode [main] never ends with an uncaught [Exception]: for
    every world, either it returns normally, having read standard input first
    and printed exactly one response, as its last interaction (nothing before
    it is a response or another read), a response that carries a ["status"]
    string; or it propagates an exception that is no [Exception]. *)
Theorem main_json_one_response (fuel : nat) (args : Args) (w : World) :
  args_interactive args = false ->
  (snd (main fuel args w) = Ok tt /\
   exists (before : list event) (response : list (string * pyval)) (status : string),
     trace (fst (main fuel args w)) =
       (EStdinRead :: before ++ [EPrintJson response None false])%list /\
     Forall (fun ev => is_response ev = false /\ ev <> EStdinRead) before /\
     items_lookup response "status" = Some (PStr status)) \/
  (exists e : exn, snd (main fuel args w) = Raise e /\ is_Exception e = false).
Proof.
  intros Hmode. unfold main. rewrite Hmode.
  assert (Hgen : forall (st' : State) (out : result unit),
    main_json (initial_state args w) = (st', out) ->
    (out = Ok tt /\
     exists before response status,
       trace st' = (EStdinRead :: before ++ [EPrintJson response None false])%list /\
       Forall inner_event before /\
       items_lookup response "status" = Some (PStr status)) \/
    (exists e, out = Raise e /\ is_Exception e = false)).
  2:{ destruct (main_json (initial_state args w)) as [st' out] eqn:Hrun.
      exact (Hgen st' out eq_refl). }
  intros st' out.
  assert (Hhandled : forall (st : State) (e : exn) (before : list event),
    trace st = (EStdinRead :: before)%list ->
    Forall inner_event before ->
    match find_handler
            [ (is_JSONDecodeError,
               fun _ : exn => print_json json_error_response None false);
              (is_Exception,
               fun e0 : exn => print_json (unexpected_error_response e0) None false) ]
            e with
    | Some h => h st
    | None => (st, Raise e)
    end = (st', out) ->
    (out = Ok tt /\
     exists before' response status,
       trace st' = (EStdinRead :: before' ++ [EPrintJson response None false])%list /\
       Forall inner_event before' /\
       items_lookup response "status" = Some (PStr status)) \/
    (exists e', out = Raise e' /\ is_Exception e' = false)).
  { intros st e before Htrace Hbefore. cbn.
    destruct (is_JSONDecodeError e); [ | destruct (is_Exception e) eqn:He ]; cbn;
      intros [= <- <-].
    - left. split; [ reflexivity | ].
      exists before, json_error_response, "json_error". cbn. rewrite Htrace.
      repeat split; assumption.
    - left. split; [ reflexivity | ].
      exists before, (unexpected_error_response e), "error". cbn. rewrite Htrace.
      repeat split; assumption.
    - right. exists e. split; [ reflexivity | exact He ]. }
  unfold main_json, try_except.
  unfold bind at 1. unfold call at 1. cbn [initial_state world self trace].
  destruct (sys_stdin_read w) as [w' [e|payload]]; cbn [of_sum app].
  { apply (Hhandled _ e []); [ reflexivity | constructor ]. }
  unfold bind at 1. unfold lift at 1.
  destruct (json_loads payload) as [e|input_data]; cbn [of_sum].
  { apply (Hhandled _ e []); [ reflexivity | constructor ]. }
  unfold bind at 1.
  match goal with
  | |- context [dispatch input_data ?st] =>
      destruct (dispatch_run input_data st) as [(evs & Htrace & Hevs) Hout];
      destruct (dispatch input_data st) as [st2 out2]
  end.
  cbn [fst snd trace] in Htrace, Hout.
  assert (Hinner : Forall inner_event evs).
  { eapply Forall_impl; [ exact Hevs | exact service_event_inner ]. }
  destruct Hout as [(r & status & -> & Hstatus) | (e & ->)].
  - cbn. intros [= <- <-]. left. split; [ reflexivity | ].
    exists evs, r, status. cbn. rewrite Htrace. repeat split; assumption.
  - apply (Hhandled st2 e evs); [ exact Htrace | exact Hinner ].
Qed.

(** X10: a request whose action is ["load"] is answered with the result of
    [load_model] itself, whatever other keys it carries: when the load
    returns, its response is the one document printed after it. *)
Theorem main_json_load_request
    (fuel : nat) (args : Args) (w w' : World) (payload : string)
    (items : list (string * pyval)) (st1 : State) (r : list (string * pyval)) :
  args_interactive args = false ->
  sys_stdin_read w = (w', inr payload) ->
  json_loads payload = inr (PDict items) ->
  items_lookup items "action" = Some (PStr "load") ->
  load_model
    (mkState w' (NLLBTranslator_init (args_model_path args) (args_device args))
       [EStdinRead]) = (st1, Ok r) ->
  main fuel args w =
    (mkState (world st1) (self st1) (trace st1 ++ [EPrintJson r None false]), Ok tt).
Proof.
  intros Hmode Hread Hparse Haction Hload.
  unfold main. rewrite Hmode.
  unfold main_json, try_except.
  rewrite (bind_Ok _ _ _ _ payload
             (call_answer EStdinRead sys_stdin_read (initial_state args w) _ _ Hread)).
  unfold bind at 1. unfold lift at 1. rewrite Hparse. cbn [of_sum].
  unfold bind at 1. rewrite dispatch_unfold, Haction.
  cbn -[load_model]. cbn -[load_model] in Hload. rewrite Hload. reflexivity.
Qed.

(** X11: a request whose action is ["translate"] and that has a ["text"] is
    answered with the result of [translate] on that text, the source language
    defaulting to ["en"] and the target language to ["es"] when their keys
    are absent (a key that is present is passed as it is, [null] included):
    when [translate] returns, its response is the one document printed. *)
Theorem main_json_translate_request
    (fuel : nat) (args : Args) (w w' : World) (payload : string)
    (items : list (string * pyval)) (text : pyval)
    (st1 : State) (r : list (string * pyval)) :
  args_interactive args = false ->
  sys_stdin_read w = (w', inr payload) ->
  json_loads payload = inr (PDict items) ->
  items_lookup items "action" = Some (PStr "translate") ->
  items_lookup items "text" = Some text ->
  translate text
    (default (PStr "en") (items_lookup items "source_lang"))
    (default (PStr "es") (items_lookup items "target_lang"))
    (mkState w' (NLLBTranslator_init (args_model_path args) (args_device args))
       [EStdinRead]) = (st1, Ok r) ->
  main fuel args w =
    (mkState (world st1) (self st1) (trace st1 ++ [EPrintJson r None false]), Ok tt).
Proof.
  intros Hmode Hread Hparse Haction Htext Hrun.
  unfold main. rewrite Hmode.
  unfold main_json, try_except.
  rewrite (bind_Ok _ _ _ _ payload
             (call_answer EStdinRead sys_stdin_read (initial_state args w) _ _ Hread)).
  unfold bind at 1. unfold lift at 1. rewrite Hparse. cbn [of_sum].
  unfold bind at 1. rewrite dispatch_unfold, Haction, Htext.
  cbn -[translate]. cbn -[translate] in Hrun. rewrite Hrun. reflexivity.
Qed.


(** ** The interactive mode: a translating turn, interrupts, end of input *)

(** X12: a turn of the interactive loop whose text line is not the quit word
    reads the source and the target language, calls [translate] with the
    stripped text and with ["en"] and ["es"] in place of a language line that
    is blank after stripping, prints the response with [indent=2], and goes
    on with the next turn. *)
Theorem interactive_turn_translates
    (fuel : nat) (st : State) (w1 w2 w3 : World) (line1 line2 line3 : string)
    (st4 : State) (r : list (string * pyval)) :
  input "Text: " (world st) = (w1, inr line1) ->
  lower (strip line1) <> "quit" ->
  input "Source language (en): " w1 = (w2, inr line2) ->
  input "Target language (es): " w2 = (w3, inr line3) ->
  translate (PStr (strip line1))
    (PStr (str_or (strip line2) "en")) (PStr (str_or (strip line3) "es"))
    (mkState w3 (self st)
       (trace st ++ [ EInput "Text: "; EInput "Source language (en): ";
                      EInput "Target language (es): " ])) = (st4, Ok r) ->
  interactive_loop (S fuel) st =
    interactive_loop fuel
      (mkState (world st4) (self st4) (trace st4 ++ [EPrintJson r (Some 2) false])).
Proof.
  intros H1 Hquit H2 H3 Hrun.
  cbn [interactive_loop]. unfold interactive_turn.
  unfold bind at 1. unfold try_except.
  unfold bind at 1. unfold call at 1. rewrite H1. cbn [of_sum].
  destruct (String.eqb (lower (strip line1)) "quit") eqn:Heq.
  { apply String.eqb_eq in Heq. contradiction. }
  unfold bind at 1. unfold call at 1. cbn [world self trace]. rewrite H2. cbn [of_sum].
  unfold bind at 1. unfold call at 1. cbn [world self trace]. rewrite H3. cbn [of_sum].
  unfold bind at 1. rewrite <- !app_assoc. cbn [app].
  rewrite Hrun. reflexivity.
Qed.

(** X13: when reading the text line raises, the loop ends on that turn with
    the prompt as its only interaction: normally for a [KeyboardInterrupt],
    and with the exception itself, uncaught, for anything else (the
    [EOFError] of an exhausted standard input included). *)
Theorem interactive_prompt_raises
    (fuel : nat) (st : State) (w' : World) (e : exn) :
  input "Text: " (world st) = (w', inl e) ->
  interactive_loop (S fuel) st =
    (mkState w' (self st) (trace st ++ [EInput "Text: "]),
     if is_KeyboardInterrupt e then Ok tt else Raise e).
Proof.
  intros Hread.
  cbn [interactive_loop]. unfold interactive_turn.
  unfold bind at 1. unfold try_except.
  unfold bind at 1. unfold call at 1. rewrite Hread. cbn [of_sum find_handler].
  destruct (is_KeyboardInterrupt e); reflexivity.
Qed.



(** ** The tokenizer and the model of a loaded translator, in every run *)

Lemma has_model_stays_refl (st : State) : has_model_stays st st.
Proof. intros H. exact H. Qed.

Lemma has_model_stays_trans (st1 st2 st3 : State) :
  has_model_stays st1 st2 -> has_model_stays st2 st3 -> has_model_stays st1 st3.
Proof. unfold has_model_stays. auto. Qed.

Lemma has_model_emit (ev : event) : respects has_model_stays (emit ev).
Proof. intros st H. exact H. Qed.

Lemma has_model_call {A : Type} (ev : event) (f : World -> World * (exn + A)) :
  respects has_model_stays (call ev f).
Proof. intros st H. unfold call. destruct (f (world st)). exact H. Qed.

Lemma has_model_load_model : respects has_model_stays load_model.
Proof. intros st. exact (load_model_has_model st). Qed.

Lemma has_model_translate (text source_lang target_lang : pyval) :
  respects has_model_stays (translate text source_lang target_lang).
Proof. intros st. exact (translate_has_model text source_lang target_lang st). Qed.

(** The two operations as wholes first, then the combinators. *)
Ltac has_model_steps :=
  repeat match goal with
         | |- respects _ load_model => exact has_model_load_model
         | |- respects _ (translate _ _ _) => apply has_model_translate
         | |- respects _ (emit _) => apply has_model_emit
         | |- respects _ (print_json _ _ _) => apply has_model_emit
         | |- respects _ (call _ _) => apply has_model_call
         | |- respects _ (ret _) => apply (respects_ret _ has_model_stays_refl)
         | |- respects _ (lift _) => apply (respects_lift _ has_model_stays_refl)
         | |- respects _ (bind _ _) =>
             apply (respects_bind _ has_model_stays_trans); [ | intros ? ]
         | |- respects _ (try_except _ _) =>
             apply (respects_try_except _ has_model_stays_trans)
         | |- Forall _ (_ :: _) => constructor; [ intros ?; cbn [snd] | ]
         | |- Forall _ [] => constructor
         | |- respects _ (if ?b then _ else _) => destruct b
         end.

Lemma has_model_main_json : respects has_model_stays main_json.
Proof. unfold main_json, dispatch. has_model_steps. Qed.

Lemma has_model_interactive_loop (fuel : nat) :
  respects has_model_stays (interactive_loop fuel).
Proof.
  induction fuel as [|fuel IH]; cbn [interactive_loop].
  - apply (respects_out_of_fuel _ has_model_stays_refl).
  - apply (respects_bind _ has_model_stays_trans).
    + unfold interactive_turn. has_model_steps.
    + intros [|]; [ apply (respects_ret _ has_model_stays_refl) | exact IH ].
Qed.

(** X15: in every state a run of [main] ends in, in either mode and whatever
    its outcome, a translator whose loaded flag is set has a tokenizer and a
    model: [translate] never meets a loaded translator without them. *)
Theorem main_loaded_has_model (fuel : nat) (args : Args) (w : World) :
  loaded (self (fst (main fuel args w))) = true ->
  is_Some (tokenizer (self (fst (main fuel args w)))) /\
  is_Some (model (self (fst (main fuel args w)))).
Proof.
  assert (Hrun : has_model_stays (initial_state args w) (fst (main fuel args w))).
  { unfold main. destruct (args_interactive args).
    - unfold main_interactive, print.
      apply (respects_bind _ has_model_stays_trans); [ apply has_model_emit | intros _ ].
      apply (respects_bind _ has_model_stays_trans); [ apply has_model_emit | intros _ ].
      apply has_model_interactive_loop.
    - apply has_model_main_json. }
  apply Hrun. apply fresh_translator_has_model.
Qed.


(** ** Half-finished loads *)

(** X16: when the tokenizer loads and the model then fails with an
    [Exception], [load_model] returns the [load_error] response carrying that
    exception's message, and leaves a half-initialised translator: the new
    tokenizer is in place, the model and the loaded flag are what they
    were. *)
Theorem load_model_model_failure
    (st : State) (w1 w2 : World) (t : Tokenizer) (e : exn) :
  os_path_exists (model_path (self st)) (world st) = true ->
  AutoTokenizer_from_pretrained (model_path (self st)) (world st) = (w1, inr t) ->
  AutoModelForSeq2SeqLM_from_pretrained (model_path (self st))
    (if String.eqb (device (self st)) "cpu" then float32 else float16)
    (if String.eqb (device (self st)) "cpu" then None else Some "auto") w1
    = (w2, inl e) ->
  is_Exception e = true ->
  snd (load_model st) =
    Ok [ ("error", PStr ("Failed to load model: " +:+ exc_str e));
         ("status", PStr "load_error") ] /\
  self (fst (load_model st)) =
    mkTranslator (model_path (self st)) (device (self st)) (model (self st)) (Some t)
      (loaded (self st)).
Proof.
  intros Hexists Htok Hmodel He.
  unfold load_model, try_except, load_model_body.
  unfold bind, get_self, query, print_json, emit, call, set_tokenizer, set_model,
    set_loaded, ret.
  cbn. rewrite Hexists. cbn. rewrite Htok. cbn.
  destruct (String.eqb (device (self st)) "cpu"); cbn in *;
    rewrite Hmodel; cbn; rewrite He; split; reflexivity.
Qed.

Lemma load_model_flag (st : State) :
  snd (load_model st) <> Ok loaded_response ->
  loaded (self (fst (load_model st))) = loaded (self st).
Proof.
  run_load_model; intros H; try reflexivity; exfalso; apply H; reflexivity.
Qed.

(** X17: a [translate] call on an unloaded translator leaves the loaded flag
    set exactly when its implicit load returned the [loaded] response; after
    a failed load the flag is still false, so the next [translate] loads
    again. *)
Theorem translate_sets_flag_iff_loaded
    (text source_lang target_lang : pyval) (st : State) :
  loaded (self st) = false ->
  (loaded (self (fst (translate text source_lang target_lang st))) = true <->
   snd (load_model st) = Ok loaded_response).
Proof.
  intros Hflag. rewrite translate_unfold. cbn zeta. rewrite Hflag.
  pose proof (load_model_flag st) as Hkeep.
  destruct (load_model_cases st) as (st1 & Hst1 & Hcases).
  destruct (load_model st) as [st1' out]; cbn [fst snd] in *; subst st1'.
  destruct Hcases as [-> | [(e & _ & ->) | [[-> Hset] | (e & _ & ->)]]]; cbn.
  - rewrite Hkeep, Hflag by discriminate. split; discriminate.
  - rewrite Hkeep, Hflag by discriminate. split; discriminate.
  - rewrite translate_body_same_self. split; [ reflexivity | intros _; exact Hset ].
  - rewrite Hkeep, Hflag by discriminate. split; discriminate.
Qed.

End Facts.

(** * The theorems on the demo runtime *)

(** An unknown code resolves to the defaults. *)
Lemma lang_codes_lookup_witness :
  src_code (PStr "xx") = Ok "eng_Latn" /\ tgt_code (PStr "xx") = Ok "spa_Latn".
Proof.
  apply (proj2 (proj2 lang_codes_lookup) "xx").
  apply (bool_decide_unpack _). vm_compute. reflexivity.
Defined.

(** "Hello" through the echo model: a success response. *)
Lemma translate_success_response_witness :
  exists st' : State,
    translate (PStr "Hello") (PStr "en") (PStr "es") Demo.loaded_state =
      (st', Ok [ ("status", PStr "success");
                 ("translation", PStr "Hello");
                 ("source_lang", PStr "en");
                 ("target_lang", PStr "es");
                 ("model", PStr "nllb-200") ]) /\
    world st' = world Demo.loaded_state /\ self st' = self Demo.loaded_state.
Proof.
  apply (@translate_success_response Demo.runtime
           (PStr "Hello") (PStr "en") (PStr "es") Demo.loaded_state
           tt tt "spa_Latn" [72; 101; 108; 108; 111] [72; 101; 108; 108; 111]
           256161 [256161; 72; 101; 108; 108; 111] "Hello"
           (world Demo.loaded_state));
    try reflexivity.
  exists (world Demo.loaded_state), (world Demo.loaded_state),
    (world Demo.loaded_state), (world Demo.loaded_state).
  repeat split; vm_compute; reflexivity.
Defined.

(** C1 as stated fails: on the loaded demo translator every step of
    translating the empty text succeeds, and the success response carries the
    empty string as its translation. *)
Lemma translate_success_empty_translation :
  loaded (self Demo.loaded_state) = true /\
  translation_succeeds (self Demo.loaded_state) tt tt (PStr "") "spa_Latn"
    (world Demo.loaded_state) [] [] 256161 [256161] "" (world Demo.loaded_state) /\
  snd (translate (PStr "") (PStr "en") (PStr "es") Demo.loaded_state) =
    Ok [ ("status", PStr "success");
         ("translation", PStr "");
         ("source_lang", PStr "en");
         ("target_lang", PStr "es");
         ("model", PStr "nllb-200") ].
Proof.
  split; [ reflexivity | split ].
  - exists (world Demo.loaded_state), (world Demo.loaded_state),
      (world Demo.loaded_state), (world Demo.loaded_state).
    repeat split; vm_compute; reflexivity.
  - vm_compute. reflexivity.
Qed.

(** A first [translate] with a missing model directory returns the load's
    [model_not_found] result. *)
Lemma translate_propagates_load_failure_witness :
  translate (PStr "Hello") (PStr "en") (PStr "es") Demo.missing_state =
    (mkState (world Demo.missing_state) (self Demo.missing_state)
       [EPathExists "/models/absent"],
     Ok [ ("error", PStr "Model not found at /models/absent");
          ("status", PStr "model_not_found") ]).
Proof.
  apply (@translate_propagates_load_failure Demo.runtime); reflexivity.
Defined.

Lemma load_model_missing_path_witness :
  load_model Demo.missing_state =
    (mkState (world Demo.missing_state) (self Demo.missing_state)
       [EPathExists "/models/absent"],
     Ok [ ("error", PStr "Model not found at /models/absent");
          ("status", PStr "model_not_found") ]) /\
  self (fst (load_model Demo.missing_state)) = self Demo.missing_state /\
  (loaded (self Demo.missing_state) = false ->
   loaded (self (fst (load_model Demo.missing_state))) = false).
Proof.
  apply (@load_model_missing_path Demo.runtime Demo.missing_state). reflexivity.
Defined.

(** "Hello" on the loaded demo translator: the four interactions, with the
    keyword arguments of the script. *)
Lemma translate_success_calls_witness :
  trace (fst (translate (PStr "Hello") (PStr "en") (PStr "es") Demo.loaded_state)) =
    [ @ETokenizerCall Demo.runtime tt (PStr "Hello") (TokenizerKwargs "pt" true true 512);
      @ELangCodeToId Demo.runtime tt "spa_Latn";
      @EGenerate Demo.runtime tt [72; 101; 108; 108; 111]
        (GenerateKwargs 256161 512 4 true false);
      @EDecode Demo.runtime tt [256161; 72; 101; 108; 108; 111] true ].
Proof.
  destruct (@translate_success_calls Demo.runtime
              (PStr "Hello") (PStr "en") (PStr "es") Demo.loaded_state
              (fst (translate (PStr "Hello") (PStr "en") (PStr "es") Demo.loaded_state))
              (success_response "Hello" (PStr "en") (PStr "es")))
    as (st1 & t & m & tgt & inputs & moved & bos & outputs & translation &
        Hst1 & Htok & Hmodel & Htgt & Hsteps & Htrace & Hr);
    [ vm_compute; reflexivity | reflexivity | ].
  destruct Hst1 as [[_ ->] | [Hflag _]]; [ | discriminate Hflag ].
  injection Htgt as <-.
  destruct t, m.
  destruct Hsteps as (w1 & w2 & w3 & w4 & H1 & H2 & H3 & H4 & H5).
  cbn in H1. injection H1 as <- <-.
  cbn in H2. injection H2 as <- <-.
  cbn in H3. injection H3 as <- <-.
  cbn in H4. injection H4 as <- <-.
  exact Htrace.
Defined.


Lemma main_json_unknown_action_witness :
  @main Demo.runtime 0 Demo.json_args (Demo.mkWorld [] [inr Demo.ping_request]) =
    (@mkState Demo.runtime (Demo.mkWorld [] []) (NLLBTranslator_init "/models/nllb" "cpu")
       [ EStdinRead;
         EPrintJson [ ("error", PStr "Unknown action"); ("status", PStr "error") ]
           None false ],
     Ok tt).
Proof.
  apply (@main_json_unknown_action Demo.runtime 0 Demo.json_args
           (Demo.mkWorld [] [inr Demo.ping_request]) (Demo.mkWorld [] [])
           Demo.ping_request [("action", PStr "ping")]);
    try reflexivity; cbn; discriminate.
Defined.

Lemma main_json_translate_without_text_witness :
  exists message : string,
    @main Demo.runtime 0 Demo.json_args (Demo.mkWorld [] [inr Demo.translate_without_text]) =
      (@mkState Demo.runtime (Demo.mkWorld [] []) (NLLBTranslator_init "/models/nllb" "cpu")
         [ EStdinRead;
           EPrintJson [ ("error", PStr message); ("status", PStr "error") ]
             None false ],
       Ok tt) /\
    message = "Unexpected error: 'text'" /\
    String.prefix "Unexpected error:" message = true.
Proof.
  apply (@main_json_translate_without_text Demo.runtime 0 Demo.json_args
           (Demo.mkWorld [] [inr Demo.translate_without_text]) (Demo.mkWorld [] [])
           Demo.translate_without_text [("action", PStr "translate")]);
    reflexivity.
Defined.

Lemma loaded_flag_never_cleared_witness :
  loaded (self (fst (load_model Demo.loaded_state))) = true /\
  loaded (self (fst (translate (PStr "Hello") (PStr "en") (PStr "es")
                       Demo.loaded_state))) = true.
Proof.
  destruct (@loaded_flag_never_cleared Demo.runtime Demo.loaded_state eq_refl)
    as (Hload & Htranslate & _).
  split; [ exact Hload | apply Htranslate ].
Defined.

(** A turn that reads " QUIT " ends the loop after the text prompt. *)
Lemma interactive_quit_witness :
  interactive_loop 1 (@mkState Demo.runtime (Demo.mkWorld [] [inr " QUIT "]) Demo.loaded_translator []) =
    (@mkState Demo.runtime (Demo.mkWorld [] []) Demo.loaded_translator [EInput "Text: "], Ok tt).
Proof.
  apply (@interactive_quit Demo.runtime 0
           (@mkState Demo.runtime (Demo.mkWorld [] [inr " QUIT "]) Demo.loaded_translator [])
           (Demo.mkWorld [] []) " QUIT ");
    reflexivity.
Defined.

(** * The further properties on the demo runtime *)

(** A fresh translator on the existing directory, on ["cpu"]. *)
Lemma load_model_success_calls_witness :
  exists (t : @Tokenizer DemoRequests.runtime) (m0 m : @Model DemoRequests.runtime)
         (w1 w2 : @World DemoRequests.runtime),
    loaded_response = loaded_response /\
    Demo.path_exists "/models/nllb" (DemoRequests.world_with []) = true /\
    Demo.load_from "/models/nllb" (DemoRequests.world_with []) = (w1, inr t) /\
    DemoRequests.load_model_from "/models/nllb" w1 = (w2, inr m0) /\
    (w2, @inr exn unit m0) =
      (world (fst (load_model (DemoRequests.fresh_state "/models/nllb"))), inr m) /\
    self (fst (load_model (DemoRequests.fresh_state "/models/nllb"))) =
      mkTranslator "/models/nllb" "cpu" (Some m) (Some t) true /\
    trace (fst (load_model (DemoRequests.fresh_state "/models/nllb"))) =
      ([]
       ++ [ EPathExists "/models/nllb";
            EPrintJson [ ("status", PStr "loading");
                         ("message", PStr "Loading NLLB model...") ] None true;
            ETokenizerFromPretrained "/models/nllb";
            EModelFromPretrained "/models/nllb" float32 None ]
       ++ [EModelTo m0 "cpu"])%list.
Proof.
  apply (@load_model_success_calls DemoRequests.runtime
           (DemoRequests.fresh_state "/models/nllb")
           (fst (load_model (DemoRequests.fresh_state "/models/nllb")))
           loaded_response);
    vm_compute; reflexivity.
Defined.

(** A list as the source language. *)
Lemma translate_unhashable_language_witness :
  exists culprit : pyval,
    (culprit = PList [] \/ hashable (PList []) = true /\ culprit = PStr "es") /\
    hashable culprit = false /\
    translate (PStr "Hello") (PList []) (PStr "es") Demo.loaded_state =
      (Demo.loaded_state,
       Ok [ ("error", PStr ("Translation failed: unhashable type: '"
                            +:+ py_type_name culprit +:+ "'"));
            ("status", PStr "translation_error") ]).
Proof.
  apply (@translate_unhashable_language Demo.runtime
           (PStr "Hello") (PList []) (PStr "es") Demo.loaded_state);
    [ reflexivity | left; reflexivity ].
Defined.

(** English or French as the source: the same calls, the same translation. *)
Lemma translate_ignores_source_lang_witness :
  fst (translate (PStr "Hello") (PStr "en") (PStr "es") Demo.loaded_state) =
    fst (translate (PStr "Hello") (PStr "fr") (PStr "es") Demo.loaded_state) /\
  ((exists translation : string,
      snd (translate (PStr "Hello") (PStr "en") (PStr "es") Demo.loaded_state) =
        Ok (success_response translation (PStr "en") (PStr "es")) /\
      snd (translate (PStr "Hello") (PStr "fr") (PStr "es") Demo.loaded_state) =
        Ok (success_response translation (PStr "fr") (PStr "es"))) \/
   snd (translate (PStr "Hello") (PStr "en") (PStr "es") Demo.loaded_state) =
     snd (translate (PStr "Hello") (PStr "fr") (PStr "es") Demo.loaded_state)).
Proof.
  apply (@translate_ignores_source_lang Demo.runtime); reflexivity.
Defined.

(** The first [translate] of a fresh translator on the existing directory. *)
Lemma translate_after_implicit_load_witness :
  loaded (self (fst (load_model (DemoRequests.fresh_state "/models/nllb")))) = true /\
  translate (PStr "Hello") (PStr "en") (PStr "es")
    (DemoRequests.fresh_state "/models/nllb") =
    translate (PStr "Hello") (PStr "en") (PStr "es")
      (fst (load_model (DemoRequests.fresh_state "/models/nllb"))) /\
  translate (PStr "Hello") (PStr "en") (PStr "es")
    (fst (load_model (DemoRequests.fresh_state "/models/nllb"))) =
    try_except (translate_body (PStr "Hello") (PStr "en") (PStr "es"))
      [ (is_Exception, fun e => ret (translation_error_response e)) ]
      (fst (load_model (DemoRequests.fresh_state "/models/nllb"))).
Proof.
  apply (@translate_after_implicit_load DemoRequests.runtime
           (PStr "Hello") (PStr "en") (PStr "es")
           (DemoRequests.fresh_state "/models/nllb")
           (fst (load_model (DemoRequests.fresh_state "/models/nllb")))
           loaded_response);
    vm_compute; reflexivity.
Defined.

(** Text that is no JSON: the one response is the [json_error] one. *)
Lemma main_json_one_response_witness :
  (snd (@main Demo.runtime 0 Demo.json_args (Demo.mkWorld [] [inr "not json"])) = Ok tt /\
   exists (before : list event) (response : list (string * pyval)) (status : string),
     trace (fst (@main Demo.runtime 0 Demo.json_args
                   (Demo.mkWorld [] [inr "not json"]))) =
       (EStdinRead :: before ++ [EPrintJson response None false])%list /\
     Forall (fun ev => is_response ev = false /\ ev <> EStdinRead) before /\
     items_lookup response "status" = Some (PStr status)) \/
  (exists e : exn,
     snd (@main Demo.runtime 0 Demo.json_args (Demo.mkWorld [] [inr "not json"])) =
       Raise e /\ is_Exception e = false).
Proof.
  apply (@main_json_one_response Demo.runtime 0 Demo.json_args
           (Demo.mkWorld [] [inr "not json"])).
  reflexivity.
Defined.

(** A load request with a stray ["text"] key. *)
Lemma main_json_load_request_witness :
  @main DemoRequests.runtime 0 DemoRequests.json_args
    (DemoRequests.world_with [inr DemoRequests.load_request]) =
    (@mkState DemoRequests.runtime (DemoRequests.world_with [])
       DemoRequests.loaded_translator
       [ EStdinRead;
         EPathExists "/models/nllb";
         EPrintJson [ ("status", PStr "loading");
                      ("message", PStr "Loading NLLB model...") ] None true;
         ETokenizerFromPretrained "/models/nllb";
         EModelFromPretrained "/models/nllb" float32 None;
         @EModelTo DemoRequests.runtime tt "cpu";
         EPrintJson [ ("status", PStr "loaded");
                      ("message", PStr "NLLB model loaded successfully") ]
           None false ],
     Ok tt).
Proof.
  apply (@main_json_load_request DemoRequests.runtime 0 DemoRequests.json_args
           (DemoRequests.world_with [inr DemoRequests.load_request])
           (DemoRequests.world_with []) DemoRequests.load_request
           [("action", PStr "load"); ("text", PStr "ignored")]
           (@mkState DemoRequests.runtime (DemoRequests.world_with [])
              DemoRequests.loaded_translator
              [ EStdinRead;
                EPathExists "/models/nllb";
                EPrintJson loading_message None true;
                ETokenizerFromPretrained "/models/nllb";
                EModelFromPretrained "/models/nllb" float32 None;
                @EModelTo DemoRequests.runtime tt "cpu" ])
           loaded_response);
    vm_compute; reflexivity.
Defined.

(** A translate request without language keys: ["en"] and ["es"]. *)
Lemma main_json_translate_request_witness :
  snd (@main DemoRequests.runtime 0 DemoRequests.json_args
         (DemoRequests.world_with [inr DemoRequests.hello_request])) = Ok tt /\
  last (trace (fst (@main DemoRequests.runtime 0 DemoRequests.json_args
                      (DemoRequests.world_with [inr DemoRequests.hello_request])))) =
    Some (EPrintJson (success_response "Hello" (PStr "en") (PStr "es")) None false).
Proof.
  rewrite (@main_json_translate_request DemoRequests.runtime 0 DemoRequests.json_args
             (DemoRequests.world_with [inr DemoRequests.hello_request])
             (DemoRequests.world_with []) DemoRequests.hello_request
             [("action", PStr "translate"); ("text", PStr "Hello")]
             (PStr "Hello")
             (fst (translate (PStr "Hello") (PStr "en") (PStr "es")
                     (@mkState DemoRequests.runtime (DemoRequests.world_with [])
                        (NLLBTranslator_init "/models/nllb" "cpu") [EStdinRead])))
             (success_response "Hello" (PStr "en") (PStr "es")));
    try (vm_compute; reflexivity).
  split; vm_compute; reflexivity.
Defined.


(** A turn with padded text, a blank source line and ["fr"] as target. *)
Lemma interactive_turn_translates_witness :
  interactive_loop 2 (DemoRequests.loaded_state [inr " Hi "; inr ""; inr "fr"]) =
    interactive_loop 1
      (@mkState DemoRequests.runtime (DemoRequests.world_with [])
         DemoRequests.loaded_translator
         [ EInput "Text: "; EInput "Source language (en): ";
           EInput "Target language (es): ";
           @ETokenizerCall DemoRequests.runtime tt (PStr "Hi") (TokenizerKwargs "pt" true true 512);
           @ELangCodeToId DemoRequests.runtime tt "fra_Latn";
           @EGenerate DemoRequests.runtime tt [72; 105] (GenerateKwargs 256057 512 4 true false);
           @EDecode DemoRequests.runtime tt [256057; 72; 105] true;
           EPrintJson (success_response "Hi" (PStr "en") (PStr "fr")) (Some 2) false ]).
Proof.
  apply (@interactive_turn_translates DemoRequests.runtime 1
           (DemoRequests.loaded_state [inr " Hi "; inr ""; inr "fr"])
           (DemoRequests.world_with [inr ""; inr "fr"])
           (DemoRequests.world_with [inr "fr"])
           (DemoRequests.world_with [])
           " Hi " "" "fr"
           (@mkState DemoRequests.runtime (DemoRequests.world_with [])
              DemoRequests.loaded_translator
              [ EInput "Text: "; EInput "Source language (en): ";
                EInput "Target language (es): ";
                @ETokenizerCall DemoRequests.runtime tt (PStr "Hi") (TokenizerKwargs "pt" true true 512);
                @ELangCodeToId DemoRequests.runtime tt "fra_Latn";
                @EGenerate DemoRequests.runtime tt [72; 105] (GenerateKwargs 256057 512 4 true false);
                @EDecode DemoRequests.runtime tt [256057; 72; 105] true ])
           (success_response "Hi" (PStr "en") (PStr "fr")));
    try reflexivity.
  vm_compute. discriminate.
Defined.

(** Standard input at its end: the loop ends with the [EOFError]. *)
Lemma interactive_prompt_raises_witness :
  interactive_loop 1 (DemoRequests.loaded_state []) =
    (@mkState DemoRequests.runtime (DemoRequests.world_with [])
       DemoRequests.loaded_translator
       [EInput "Text: "],
     Raise (Exc EOFError "EOF when reading a line")).
Proof.
  apply (@interactive_prompt_raises DemoRequests.runtime 0
           (DemoRequests.loaded_state []) (DemoRequests.world_with [])
           (Exc EOFError "EOF when reading a line")).
  reflexivity.
Defined.


(** After a translate request on a fresh process. *)
Lemma main_loaded_has_model_witness :
  is_Some (tokenizer (self (fst (@main DemoRequests.runtime 0 DemoRequests.json_args
             (DemoRequests.world_with [inr DemoRequests.hello_request]))))) /\
  is_Some (model (self (fst (@main DemoRequests.runtime 0 DemoRequests.json_args
             (DemoRequests.world_with [inr DemoRequests.hello_request]))))).
Proof.
  apply (@main_loaded_has_model DemoRequests.runtime 0 DemoRequests.json_args
           (DemoRequests.world_with [inr DemoRequests.hello_request])).
  vm_compute. reflexivity.
Defined.

(** The directory with a tokenizer and no model. *)
Lemma load_model_model_failure_witness :
  snd (load_model (DemoRequests.fresh_state "/models/tokenizer-only")) =
    Ok [ ("error", PStr "Failed to load model: no file named pytorch_model.bin");
         ("status", PStr "load_error") ] /\
  self (fst (load_model (DemoRequests.fresh_state "/models/tokenizer-only"))) =
    @mkTranslator DemoRequests.runtime "/models/tokenizer-only" "cpu" None (Some tt) false.
Proof.
  apply (@load_model_model_failure DemoRequests.runtime
           (DemoRequests.fresh_state "/models/tokenizer-only")
           (DemoRequests.world_with []) (DemoRequests.world_with []) tt
           (Exc (OtherException "OSError") "no file named pytorch_model.bin"));
    reflexivity.
Defined.

(** A missing directory: the flag stays false. *)
Lemma translate_sets_flag_iff_loaded_witness :
  loaded (self (fst (translate (PStr "Hello") (PStr "en") (PStr "es")
                       Demo.missing_state))) = true <->
  snd (load_model Demo.missing_state) = Ok loaded_response.
Proof.
  apply (@translate_sets_flag_iff_loaded Demo.runtime). reflexivity.
Defined.

(** * Where the JSON mode answers with the generic handler *)


(** C7 as stated fails: three valid JSON requests whose action is neither
    ["load"] nor ["translate"] and that do not get the ["Unknown action"]
    response.  [null] and [5] have no action field and no [get]; an object
    whose action is an integer of 4301 digits makes [json.loads] raise
    [ValueError].  Each is answered with ["Unexpected error: ..."]. *)
Lemma main_json_unknown_action_other_answers :
  DemoStdlib.run (inr "null") =
    DemoStdlib.answered
      [ ("error", PStr "Unexpected error: 'NoneType' object has no attribute 'get'");
        ("status", PStr "error") ] /\
  DemoStdlib.run (inr "5") =
    DemoStdlib.answered
      [ ("error", PStr "Unexpected error: 'int' object has no attribute 'get'");
        ("status", PStr "error") ] /\
  DemoStdlib.run (inr DemoStdlib.huge_action) =
    DemoStdlib.answered
      [ ("error", PStr "Unexpected error: Exceeds the limit (4300 digits) for integer string conversion: value has 4301 digits; use sys.set_int_max_str_digits() to increase the limit");
        ("status", PStr "error") ].
Proof. repeat split; vm_compute; reflexivity. Qed.

(** * Unicode blanks at the prompts *)

(** A text line that is the quit word between a no-break space and an em
    space ends the loop; a source line that is a lone no-break space is
    blank, so the turn translates from ["en"]. *)
Lemma interactive_unicode_blanks :
  interactive_loop 1
    (DemoRequests.loaded_state [inr (utf8 [160; 113; 117; 105; 116; 8195]%N)]) =
    (@mkState DemoRequests.runtime (DemoRequests.world_with [])
       DemoRequests.loaded_translator [EInput "Text: "],
     Ok tt) /\
  last (trace (fst (interactive_loop 1
                      (DemoRequests.loaded_state
                         [inr "Hi"; inr (utf8 [160]%N); inr "fr"])))) =
    Some (EPrintJson (success_response "Hi" (PStr "en") (PStr "fr")) (Some 2) false).
Proof. split; vm_compute; reflexivity. Qed.
